(** * github-tools: the tool registry, its approval gate and the repository tools

    A shallow embedding of [packages/github-tools/src/index.ts] (both the
    preset-capable composer and the earlier composer without presets),
    [packages/github-tools/src/tools/repository.ts] and the client
    constructor, together with the properties of the registry composer, the
    approval resolver, the branch-creation tool and the file-content tools. *)

From Stdlib Require Import ZArith Lia Ascii String.
From stdpp Require Import base option list strings gmap.

Set Warnings "-clear-no-such-hyp".

Local Open Scope string_scope.
Local Open Scope list_scope.
Local Open Scope Z_scope.

(** ** The client handle

    [createOctokit(token)] is [new Octokit({ auth: token })]: the handle is
    determined by the credential it was built with. *)

Record Octokit := { auth : string }.

Definition createOctokit (token : string) : Octokit := {| auth := token |}.

(** ** REST payloads

    The fields of the remote responses that the tools read.  [null] and
    absent values are [None]. *)

Module Rest.

Record Repository := {
  repo_name : string;
  repo_full_name : string;
  repo_description : option string;
  repo_html_url : string;
  repo_clone_url : string;
  repo_ssh_url : string;
  repo_default_branch : string;
  repo_stargazers_count : Z;
  repo_forks_count : Z;
  repo_open_issues_count : Z;
  repo_language : option string;
  repo_private : bool;
  repo_created_at : string;
  repo_updated_at : string;
  repo_parent : option (string * string)   (* full_name, html_url *)
}.

Record Branch := {
  branch_name : string;
  branch_commit_sha : string;
  branch_protected : bool
}.

(** One node of the contents API: an entry of a directory listing, or the
    node a path resolves to.  [node_content] is the base64 text of a
    file. *)
Record ContentNode := {
  node_name : string;
  node_type : string;
  node_path : string;
  node_sha : string;
  node_size : Z;
  node_content : string
}.

(** [Array.isArray(data)] tells the two shapes of [getContent] apart. *)
Inductive Content :=
| ContentArray (entries : list ContentNode)
| ContentObject (node : ContentNode).

Record GitRef := {
  ref_ref : string;
  ref_object_sha : string;
  ref_url : string
}.

Record FileCommit := {
  fc_content : option (string * string);   (* path, sha *)
  fc_commit_sha : string;
  fc_commit_html_url : string
}.

Record NewRepository := {
  new_name : string;
  new_description : option string;
  new_private : bool;
  new_auto_init : bool;
  new_gitignore_template : option string;
  new_license_template : option string
}.

End Rest.

(** ** Remote calls

    Every [octokit.rest.*] method the repository tools invoke, with the
    handle it is invoked on and its parameters.  [rest_request] stands for
    any other route of the client (the pull-request, issue, search and commit
    tools use routes of their own). *)

Inductive Call : Type :=
| repos_get (octokit : Octokit) (owner repo : string)
| repos_listBranches (octokit : Octokit) (owner repo : string) (per_page : Z)
| repos_getContent (octokit : Octokit) (owner repo path : string)
    (ref : option string)
| git_getRef (octokit : Octokit) (owner repo ref : string)
| git_createRef (octokit : Octokit) (owner repo ref sha : string)
| repos_createFork (octokit : Octokit) (owner repo : string)
    (organization name : option string)
| repos_createInOrg (octokit : Octokit) (org : string)
    (params : Rest.NewRepository)
| repos_createForAuthenticatedUser (octokit : Octokit)
    (params : Rest.NewRepository)
| repos_createOrUpdateFileContents (octokit : Octokit)
    (owner repo path message content : string) (branch sha : option string)
| rest_request (octokit : Octokit) (route : string) (P R : Type) (params : P).

(** The [data] of a fulfilled call. *)
Definition Response (c : Call) : Type :=
  match c with
  | repos_get _ _ _ => Rest.Repository
  | repos_listBranches _ _ _ _ => list Rest.Branch
  | repos_getContent _ _ _ _ _ => Rest.Content
  | git_getRef _ _ _ _ => Rest.GitRef
  | git_createRef _ _ _ _ _ => Rest.GitRef
  | repos_createFork _ _ _ _ _ => Rest.Repository
  | repos_createInOrg _ _ _ => Rest.Repository
  | repos_createForAuthenticatedUser _ _ => Rest.Repository
  | repos_createOrUpdateFileContents _ _ _ _ _ _ _ _ => Rest.FileCommit
  | rest_request _ _ _ R _ => R
  end.

(** ** Asynchronous computations

    An [async] body is a tree of awaited remote calls.  No tool catches a
    rejection, so a rejected call rejects the whole body: [Await c k] runs
    [k] on the data of [c] only when [c] is fulfilled. *)

Inductive Async (A : Type) : Type :=
| Resolve (a : A)
| Await (c : Call) (k : Response c → Async A).
Arguments Resolve {A} a.
Arguments Await {A} c k.

Fixpoint Async_bind {A B} (f : A → Async B) (m : Async A) : Async B :=
  match m with
  | Resolve a => f a
  | Await c k => Await c (λ r, Async_bind f (k r))
  end.

Definition await (c : Call) : Async (Response c) := Await c Resolve.

#[global] Instance Async_mret : MRet Async := @Resolve.
#[global] Instance Async_mbind : MBind Async := @Async_bind.

(** *** Running a body against a remote

    The remote is a state machine: it answers each call with a rejection or
    with data, and moves on.  [run] returns the outcome, the calls issued in
    order, and the remote's final state. *)

Record RequestError := { status : Z; message : string }.

Inductive Outcome (A : Type) :=
| Fulfilled (a : A)
| Rejected (e : RequestError).
Arguments Fulfilled {A} a.
Arguments Rejected {A} e.

Definition Remote (S : Type) : Type :=
  ∀ c : Call, S → (RequestError + Response c) * S.

Fixpoint run {S A} (remote : Remote S) (m : Async A) (s : S)
  : Outcome A * list Call * S :=
  match m with
  | Resolve a => (Fulfilled a, [], s)
  | Await c k =>
      match remote c s with
      | (inl e, s') => (Rejected e, [c], s')
      | (inr r, s') =>
          let '(o, calls, s'') := run remote (k r) s' in (o, c :: calls, s'')
      end
  end.

(** The calls of a run, in the order they were issued. *)
Definition calls {S A} (x : Outcome A * list Call * S) : list Call := x.1.2.

(** ** Text and bytes

    File text is a JavaScript string: a sequence of UTF-16 code units.
    Names, paths, SHAs and base64 text are kept as [string]; only file text
    goes through an encoding. *)

Definition utf16 := list Z.

Definition is_code_unit (u : Z) : bool := (0 <=? u) && (u <? 0x10000).
Definition is_high_surrogate (u : Z) : bool := (0xD800 <=? u) && (u <=? 0xDBFF).
Definition is_low_surrogate (u : Z) : bool := (0xDC00 <=? u) && (u <=? 0xDFFF).

(** A string is well formed when every unit is a 16-bit value and every
    surrogate belongs to a high-low pair. *)
Fixpoint well_formed (us : utf16) : bool :=
  match us with
  | [] => true
  | u :: r =>
      is_code_unit u &&
      (if is_high_surrogate u then
         match r with
         | l :: r' => is_low_surrogate l && well_formed r'
         | [] => false
         end
       else negb (is_low_surrogate u) && well_formed r)
  end.

(** A byte, and a Unicode scalar value: a code point that is not a
    surrogate. *)
Definition is_byte (b : Z) : Prop := 0 ≤ b < 0x100.
Definition is_scalar (cp : Z) : Prop :=
  0 ≤ cp < 0x110000 ∧ ¬ (0xD800 ≤ cp ≤ 0xDFFF).

(** The replacement character. *)
Definition U_FFFD : Z := 0xFFFD.

(** *** [Buffer]: the four conversions the tools use

    [Buffer.from(text)] encodes text as UTF-8 and replaces an unpaired
    surrogate by U+FFFD; [buf.toString('base64')] is padded standard base64;
    [Buffer.from(text, 'base64')] skips the characters that are not in the
    alphabet (the remote wraps its lines), accepts the URL-safe alphabet too
    and stops at the padding; [buf.toString('utf-8')] decodes UTF-8,
    replacing each ill-formed subsequence by U+FFFD, and keeps a leading
    byte-order mark. *)

Module Buffer.

(** The code points of a string: surrogate pairs are combined. *)
Fixpoint code_points (us : utf16) : list Z :=
  match us with
  | [] => []
  | u :: r =>
      if is_high_surrogate u then
        match r with
        | l :: r' =>
            if is_low_surrogate l
            then (0x10000 + (u - 0xD800) * 0x400 + (l - 0xDC00)) :: code_points r'
            else U_FFFD :: code_points r
        | [] => [U_FFFD]
        end
      else if is_low_surrogate u then U_FFFD :: code_points r
      else u :: code_points r
  end.

Definition utf8_bytes (cp : Z) : list Z :=
  if cp <? 0x80 then [cp]
  else if cp <? 0x800 then [0xC0 + cp / 0x40; 0x80 + cp mod 0x40]
  else if cp <? 0x10000 then
    [0xE0 + cp / 0x1000; 0x80 + (cp / 0x40) mod 0x40; 0x80 + cp mod 0x40]
  else
    [0xF0 + cp / 0x40000; 0x80 + (cp / 0x1000) mod 0x40;
     0x80 + (cp / 0x40) mod 0x40; 0x80 + cp mod 0x40].

(** [Buffer.from(text)] *)
Definition from_utf8 (text : utf16) : list Z :=
  flat_map utf8_bytes (code_points text).

Definition alphabet : string :=
  "ABCDEFGHIJKLMNOPQRSTUVWXYZabcdefghijklmnopqrstuvwxyz0123456789+/".

Definition base64_char (n : Z) : ascii :=
  default "="%char (String.get (Z.to_nat n) alphabet).

(** [buf.toString('base64')] *)
Fixpoint toString_base64 (bs : list Z) : string :=
  match bs with
  | [] => ""
  | [a] =>
      String (base64_char (a / 4)) (String (base64_char (a mod 4 * 16)) "==")
  | [a; b] =>
      String (base64_char (a / 4))
        (String (base64_char (a mod 4 * 16 + b / 16))
           (String (base64_char (b mod 16 * 4)) "="))
  | a :: b :: c :: r =>
      String (base64_char (a / 4))
        (String (base64_char (a mod 4 * 16 + b / 16))
           (String (base64_char (b mod 16 * 4 + c / 64))
              (String (base64_char (c mod 64)) (toString_base64 r))))
  end.

Definition unbase64 (c : ascii) : option Z :=
  let n := Z.of_N (Ascii.N_of_ascii c) in
  if (65 <=? n) && (n <=? 90) then Some (n - 65)
  else if (97 <=? n) && (n <=? 122) then Some (n - 71)
  else if (48 <=? n) && (n <=? 57) then Some (n + 4)
  else if (n =? 43) || (n =? 45) then Some 62
  else if (n =? 47) || (n =? 95) then Some 63
  else None.

Fixpoint sextets (text : string) : list Z :=
  match text with
  | EmptyString => []
  | String c r =>
      if Ascii.eqb c "=" then []
      else match unbase64 c with
           | Some v => v :: sextets r
           | None => sextets r
           end
  end.

Fixpoint bytes_of_sextets (vs : list Z) : list Z :=
  match vs with
  | a :: b :: c :: d :: r =>
      (a * 4 + b / 16) :: (b mod 16 * 16 + c / 4) :: (c mod 4 * 64 + d)
      :: bytes_of_sextets r
  | [a; b; c] => [a * 4 + b / 16; b mod 16 * 16 + c / 4]
  | [a; b] => [a * 4 + b / 16]
  | _ => []
  end.

(** [Buffer.from(text, 'base64')] *)
Definition from_base64 (text : string) : list Z :=
  bytes_of_sextets (sextets text).

(** The UTF-8 decoder between two bytes: idle, or inside a sequence with
    the code point so far, the continuation bytes still expected and the
    range allowed for the next byte. *)
Inductive Decoder :=
| Idle
| Pending (cp : Z) (needed : nat) (lower upper : Z).

Definition lead (b : Z) : Decoder * list Z :=
  if b <=? 0x7F then (Idle, [b])
  else if (0xC2 <=? b) && (b <=? 0xDF) then
    (Pending (b - 0xC0) 1 0x80 0xBF, [])
  else if (0xE0 <=? b) && (b <=? 0xEF) then
    (Pending (b - 0xE0) 2
       (if b =? 0xE0 then 0xA0 else 0x80) (if b =? 0xED then 0x9F else 0xBF),
     [])
  else if (0xF0 <=? b) && (b <=? 0xF4) then
    (Pending (b - 0xF0) 3
       (if b =? 0xF0 then 0x90 else 0x80) (if b =? 0xF4 then 0x8F else 0xBF),
     [])
  else (Idle, [U_FFFD]).

Definition step (d : Decoder) (b : Z) : Decoder * list Z :=
  match d with
  | Idle => lead b
  | Pending cp needed lower upper =>
      if (lower <=? b) && (b <=? upper) then
        let cp' := cp * 0x40 + (b - 0x80) in
        match needed with
        | S (S n) => (Pending cp' (S n) 0x80 0xBF, [])
        | _ => (Idle, [cp'])
        end
      else
        let '(d', out) := lead b in (d', U_FFFD :: out)
  end.

Fixpoint decode (d : Decoder) (bs : list Z) : list Z :=
  match bs with
  | [] => match d with Idle => [] | Pending _ _ _ _ => [U_FFFD] end
  | b :: r => let '(d', out) := step d b in out ++ decode d' r
  end.

Definition utf16_units (cp : Z) : list Z :=
  if cp <? 0x10000 then [cp]
  else [0xD800 + (cp - 0x10000) / 0x400; 0xDC00 + (cp - 0x10000) mod 0x400].

(** [buf.toString('utf-8')] *)
Definition toString_utf8 (bs : list Z) : utf16 :=
  flat_map utf16_units (decode Idle bs).

End Buffer.

(** ** Tool definitions

    [tool({...})] of the agent SDK returns the definition it is given.  The
    input is the value the schema has validated, defaults applied.  A
    definition that has no [needsApproval] key carries no approval flag. *)

Record Tool := tool {
  description : string;
  needsApproval : option bool;
  input : Type;
  output : Type;
  execute : input → Async output
}.

Module ToolOptions.
(** [{ needsApproval?: boolean }] *)
Record t := { needsApproval : option bool }.
(** [{}] *)
Definition empty : t := {| needsApproval := None |}.
End ToolOptions.

(** [({ needsApproval = true }: ToolOptions = {})]: both defaults of the
    parameter of a mutating tool factory. *)
Definition needsApproval_of (options : option ToolOptions.t) : bool :=
  default true (ToolOptions.needsApproval (default ToolOptions.empty options)).

(** *** JavaScript truthiness of an optional string *)

Definition truthy (s : option string) : bool :=
  match s with
  | Some s => negb (String.eqb s "")
  | None => false
  end.

(** *** [/^[0-9a-f]{40}$/i] *)

Definition is_hex_digit (c : ascii) : bool :=
  let n := Ascii.nat_of_ascii c in
  ((48 <=? n) && (n <=? 57) || (97 <=? n) && (n <=? 102)
   || (65 <=? n) && (n <=? 70))%nat.

Fixpoint hex_run (n : nat) (s : string) : bool :=
  match n, s with
  | O, EmptyString => true
  | S n, String c r => is_hex_digit c && hex_run n r
  | _, _ => false
  end.

Definition matches_sha (s : string) : bool := hex_run 40 s.

(** *** tools/repository.ts *)

Module GetRepository.
Record Input := { owner : string; repo : string }.
Record Output := {
  name : string;
  fullName : string;
  description : option string;
  url : string;
  defaultBranch : string;
  stars : Z;
  forks : Z;
  openIssues : Z;
  language : option string;
  private : bool;
  createdAt : string;
  updatedAt : string
}.
Definition execute (octokit : Octokit) (i : Input) : Async Output :=
  data ← await (repos_get octokit (owner i) (repo i));
  mret {|
    name := Rest.repo_name data;
    fullName := Rest.repo_full_name data;
    description := Rest.repo_description data;
    url := Rest.repo_html_url data;
    defaultBranch := Rest.repo_default_branch data;
    stars := Rest.repo_stargazers_count data;
    forks := Rest.repo_forks_count data;
    openIssues := Rest.repo_open_issues_count data;
    language := Rest.repo_language data;
    private := Rest.repo_private data;
    createdAt := Rest.repo_created_at data;
    updatedAt := Rest.repo_updated_at data
  |}.
End GetRepository.

Definition getRepository (octokit : Octokit) : Tool :=
  tool
    "Get information about a GitHub repository including description, stars, forks, language, and default branch"
    None _ _ (GetRepository.execute octokit).

Module ListBranches.
Record Input := { owner : string; repo : string; perPage : Z }.
Record Item := { name : string; sha : string; protected : bool }.
Definition execute (octokit : Octokit) (i : Input) : Async (list Item) :=
  data ← await (repos_listBranches octokit (owner i) (repo i) (perPage i));
  mret (map (λ branch, {|
    name := Rest.branch_name branch;
    sha := Rest.branch_commit_sha branch;
    protected := Rest.branch_protected branch
  |}) data).
End ListBranches.

Definition listBranches (octokit : Octokit) : Tool :=
  tool "List branches in a GitHub repository" None _ _
    (ListBranches.execute octokit).

Module GetFileContent.
Record Input := {
  owner : string; repo : string; path : string; ref : option string
}.
Record Entry := { entry_name : string; entry_type : string; entry_path : string }.
Inductive Output :=
| Directory (entries : list Entry)          (* type: 'directory' *)
| Node (type path : string)                 (* symlink, submodule *)
| File (path sha : string) (size : Z) (content : utf16).   (* type: 'file' *)

(** [Buffer.from(data.content, 'base64').toString('utf-8')] *)
Definition decode (content : string) : utf16 :=
  Buffer.toString_utf8 (Buffer.from_base64 content).

Definition entry_of (e : Rest.ContentNode) : Entry := {|
  entry_name := Rest.node_name e;
  entry_type := Rest.node_type e;
  entry_path := Rest.node_path e
|}.

Definition execute (octokit : Octokit) (i : Input) : Async Output :=
  data ← await (repos_getContent octokit (owner i) (repo i) (path i) (ref i));
  match data with
  | Rest.ContentArray data =>
      mret (Directory (map entry_of data))
  | Rest.ContentObject data =>
      if negb (String.eqb (Rest.node_type data) "file") then
        mret (Node (Rest.node_type data) (Rest.node_path data))
      else
        let content := decode (Rest.node_content data) in
        mret (File (Rest.node_path data) (Rest.node_sha data)
                (Rest.node_size data) content)
  end.
End GetFileContent.

Definition getFileContent (octokit : Octokit) : Tool :=
  tool "Get the content of a file from a GitHub repository" None _ _
    (GetFileContent.execute octokit).

Module CreateBranch.
Record Input := {
  owner : string; repo : string; branch : string; from : option string
}.
Record Output := { ref : string; sha : string; url : string }.

(** [!sha || !sha.match(/^[0-9a-f]{40}$/i)] with [sha = from] *)
Definition needs_lookup (from : option string) : bool :=
  negb (truthy from) || negb (from_option matches_sha false from).

Definition execute (octokit : Octokit) (i : Input) : Async Output :=
  sha ← (if needs_lookup (from i) then
           source ← (if truthy (from i) then mret (default "" (from i))
                     else
                       r ← await (repos_get octokit (owner i) (repo i));
                       mret (Rest.repo_default_branch r));
           ref ← await (git_getRef octokit (owner i) (repo i)
                          ("heads/" +:+ source));
           mret (Rest.ref_object_sha ref)
         else mret (default "" (from i)));
  data ← await (git_createRef octokit (owner i) (repo i)
                  ("refs/heads/" +:+ branch i) sha);
  mret {|
    ref := Rest.ref_ref data;
    sha := Rest.ref_object_sha data;
    url := Rest.ref_url data
  |}.
End CreateBranch.

Definition createBranch (octokit : Octokit) (options : option ToolOptions.t)
  : Tool :=
  tool
    "Create a new branch in a GitHub repository from an existing branch or commit SHA"
    (Some (needsApproval_of options)) _ _ (CreateBranch.execute octokit).

Module ForkRepository.
Record Input := {
  owner : string; repo : string;
  organization : option string; name : option string
}.
Record Output := {
  out_name : string;
  fullName : string;
  url : string;
  cloneUrl : string;
  sshUrl : string;
  defaultBranch : string;
  private : bool;
  parent : option (string * string)   (* fullName, url *)
}.
Definition execute (octokit : Octokit) (i : Input) : Async Output :=
  data ← await (repos_createFork octokit (owner i) (repo i)
                  (organization i) (name i));
  mret {|
    out_name := Rest.repo_name data;
    fullName := Rest.repo_full_name data;
    url := Rest.repo_html_url data;
    cloneUrl := Rest.repo_clone_url data;
    sshUrl := Rest.repo_ssh_url data;
    defaultBranch := Rest.repo_default_branch data;
    private := Rest.repo_private data;
    parent := Rest.repo_parent data
  |}.
End ForkRepository.

Definition forkRepository (octokit : Octokit) (options : option ToolOptions.t)
  : Tool :=
  tool
    "Fork a GitHub repository to the authenticated user account or a specified organization"
    (Some (needsApproval_of options)) _ _ (ForkRepository.execute octokit).

Module CreateRepository.
Record Input := {
  name : string;
  description : option string;
  isPrivate : bool;
  autoInit : bool;
  gitignoreTemplate : option string;
  licenseTemplate : option string;
  org : option string
}.
Record Output := {
  out_name : string;
  fullName : string;
  out_description : option string;
  url : string;
  cloneUrl : string;
  sshUrl : string;
  defaultBranch : string;
  private : bool;
  createdAt : string
}.
Definition execute (octokit : Octokit) (i : Input) : Async Output :=
  let params := {|
    Rest.new_name := name i;
    Rest.new_description := description i;
    Rest.new_private := isPrivate i;
    Rest.new_auto_init := autoInit i;
    Rest.new_gitignore_template := gitignoreTemplate i;
    Rest.new_license_template := licenseTemplate i
  |} in
  data ← (if truthy (org i)
          then await (repos_createInOrg octokit (default "" (org i)) params)
          else await (repos_createForAuthenticatedUser octokit params));
  mret {|
    out_name := Rest.repo_name data;
    fullName := Rest.repo_full_name data;
    out_description := Rest.repo_description data;
    url := Rest.repo_html_url data;
    cloneUrl := Rest.repo_clone_url data;
    sshUrl := Rest.repo_ssh_url data;
    defaultBranch := Rest.repo_default_branch data;
    private := Rest.repo_private data;
    createdAt := Rest.repo_created_at data
  |}.
End CreateRepository.

Definition createRepository (octokit : Octokit)
  (options : option ToolOptions.t) : Tool :=
  tool
    "Create a new GitHub repository for the authenticated user or a specified organization"
    (Some (needsApproval_of options)) _ _ (CreateRepository.execute octokit).

Module CreateOrUpdateFile.
Record Input := {
  owner : string; repo : string; path : string; message : string;
  content : utf16; branch : option string; sha : option string
}.
Record Output := {
  out_path : option string;
  out_sha : option string;
  commitSha : string;
  commitUrl : string
}.
(** [Buffer.from(content).toString('base64')] *)
Definition encode (content : utf16) : string :=
  Buffer.toString_base64 (Buffer.from_utf8 content).

Definition execute (octokit : Octokit) (i : Input) : Async Output :=
  let encoded := encode (content i) in
  data ← await (repos_createOrUpdateFileContents octokit (owner i) (repo i)
                  (path i) (message i) encoded (branch i) (sha i));
  mret {|
    out_path := fst <$> Rest.fc_content data;
    out_sha := snd <$> Rest.fc_content data;
    commitSha := Rest.fc_commit_sha data;
    commitUrl := Rest.fc_commit_html_url data
  |}.
End CreateOrUpdateFile.

Definition createOrUpdateFile (octokit : Octokit)
  (options : option ToolOptions.t) : Tool :=
  tool
    "Create or update a file in a GitHub repository. Provide the SHA when updating an existing file."
    (Some (needsApproval_of options)) _ _ (CreateOrUpdateFile.execute octokit).

(** *** The tool modules that are imported by index.ts

    [tools/pull-requests.ts], [tools/issues.ts], [tools/search.ts] and
    [tools/commits.ts] are imported by the composer.  What a tool of these
    modules says and does (its description, its schema, its [execute] body)
    is a parameter of the development. *)

Inductive Imported :=
| ListPullRequests | GetPullRequest | CreatePullRequest | MergePullRequest
| AddPullRequestComment
| ListIssues | GetIssue | CreateIssue | AddIssueComment | CloseIssue
| SearchCode | SearchRepositories
| ListCommits | GetCommit.

Record ToolBody := {
  body_description : string;
  body_input : Type;
  body_output : Type;
  body_execute : Octokit → body_input → Async body_output
}.

Class Imports := imported : Imported → ToolBody.

Section ImportedTools.
Context {imports : Imports}.

(** Modelled from the spec: the factory of a read-only tool of the four
    imported modules.  "Tool Definition: ... an optional approval flag
    (mutating tools only)": the definition closes over the handle and has
    no approval flag, as [getRepository] of tools/repository.ts. *)
Definition read_tool (t : Imported) (octokit : Octokit) : Tool :=
  tool (body_description (imported t)) None _ _
    (body_execute (imported t) octokit).

(** Modelled from the spec: the factory of a mutating tool of the four
    imported modules.  "for the 7 mutating tools, resolves and injects the
    approval flag": the definition carries the flag of its options, as
    [createOrUpdateFile] of tools/repository.ts. *)
Definition write_tool (t : Imported) (octokit : Octokit)
  (options : option ToolOptions.t) : Tool :=
  tool (body_description (imported t)) (Some (needsApproval_of options)) _ _
    (body_execute (imported t) octokit).

(** Modelled from the spec: [listPullRequests] of tools/pull-requests.ts. *)
Definition listPullRequests := read_tool ListPullRequests.
(** Modelled from the spec: [getPullRequest] of tools/pull-requests.ts. *)
Definition getPullRequest := read_tool GetPullRequest.
(** Modelled from the spec: [createPullRequest] of tools/pull-requests.ts. *)
Definition createPullRequest := write_tool CreatePullRequest.
(** Modelled from the spec: [mergePullRequest] of tools/pull-requests.ts. *)
Definition mergePullRequest := write_tool MergePullRequest.
(** Modelled from the spec: [addPullRequestComment] of
    tools/pull-requests.ts. *)
Definition addPullRequestComment := write_tool AddPullRequestComment.
(** Modelled from the spec: [listIssues] of tools/issues.ts. *)
Definition listIssues := read_tool ListIssues.
(** Modelled from the spec: [getIssue] of tools/issues.ts. *)
Definition getIssue := read_tool GetIssue.
(** Modelled from the spec: [createIssue] of tools/issues.ts. *)
Definition createIssue := write_tool CreateIssue.
(** Modelled from the spec: [addIssueComment] of tools/issues.ts. *)
Definition addIssueComment := write_tool AddIssueComment.
(** Modelled from the spec: [closeIssue] of tools/issues.ts. *)
Definition closeIssue := write_tool CloseIssue.
(** Modelled from the spec: [searchCode] of tools/search.ts. *)
Definition searchCode := read_tool SearchCode.
(** Modelled from the spec: [searchRepositories] of tools/search.ts. *)
Definition searchRepositories := read_tool SearchRepositories.
(** Modelled from the spec: [listCommits] of tools/commits.ts. *)
Definition listCommits := read_tool ListCommits.
(** Modelled from the spec: [getCommit] of tools/commits.ts. *)
Definition getCommit := read_tool GetCommit.

End ImportedTools.

(** ** index.ts: the registry composer *)

(** *** Objects with string keys

    A registry is a JavaScript object: its own properties in insertion
    order, no key twice. *)

Abbreviation Registry := (list (string * Tool)).

Definition Object_entries (o : Registry) : list (string * Tool) := o.

Definition Object_keys (o : Registry) : list string := o.*1.

(** [o[k] = v]: an existing property keeps its place. *)
Fixpoint set_property (o : Registry) (k : string) (v : Tool) : Registry :=
  match o with
  | [] => [(k, v)]
  | (k', v') :: o' =>
      if String.eqb k' k then (k, v) :: o' else (k', v') :: set_property o' k v
  end.

Definition Object_fromEntries (es : list (string * Tool)) : Registry :=
  fold_left (λ o e, set_property o e.1 e.2) es [].

(** [o[k]] *)
Fixpoint get_property (o : Registry) (k : string) : option Tool :=
  match o with
  | [] => None
  | (k', v) :: o' => if String.eqb k' k then Some v else get_property o' k
  end.

(** The key set of a registry. *)
Definition key_set (o : Registry) : gset string := list_to_set (Object_keys o).

(** The approval flags found in a registry under a tool name. *)
Definition approval_flags (o : Registry) (name : string) : list bool :=
  omap (λ e, if String.eqb e.1 name then needsApproval e.2 else None) o.

(** *** Names, approval configurations, presets *)

Module GithubWriteToolName.
Inductive t :=
| createOrUpdateFile
| createPullRequest
| mergePullRequest
| addPullRequestComment
| createIssue
| addIssueComment
| closeIssue.

(** The string a member of the union type is. *)
Definition to_string (n : t) : string :=
  match n with
  | createOrUpdateFile => "createOrUpdateFile"
  | createPullRequest => "createPullRequest"
  | mergePullRequest => "mergePullRequest"
  | addPullRequestComment => "addPullRequestComment"
  | createIssue => "createIssue"
  | addIssueComment => "addIssueComment"
  | closeIssue => "closeIssue"
  end.

Definition all : list t :=
  [createOrUpdateFile; createPullRequest; mergePullRequest;
   addPullRequestComment; createIssue; addIssueComment; closeIssue].
End GithubWriteToolName.

#[global] Instance GithubWriteToolName_eq_dec :
  EqDecision GithubWriteToolName.t.
Proof. solve_decision. Defined.

(** [boolean | Partial<Record<GithubWriteToolName, boolean>>].  A property
    that holds [undefined] reads like an absent one, so the object is the
    finite map of its boolean properties. *)
Inductive ApprovalConfig :=
| ApprovalBool (b : bool)
| ApprovalObject (m : gmap string bool).

Inductive GithubToolPreset :=
| code_review | issue_triage | repo_explorer | maintainer.

Definition PRESET_TOOLS (p : GithubToolPreset) : list string :=
  match p with
  | code_review => [
      "getPullRequest"; "listPullRequests"; "getFileContent"; "listCommits";
      "getCommit"; "getRepository"; "listBranches"; "searchCode";
      "addPullRequestComment" ]
  | issue_triage => [
      "listIssues"; "getIssue"; "createIssue"; "addIssueComment"; "closeIssue";
      "getRepository"; "searchRepositories"; "searchCode" ]
  | repo_explorer => [
      "getRepository"; "listBranches"; "getFileContent";
      "listPullRequests"; "getPullRequest";
      "listIssues"; "getIssue";
      "listCommits"; "getCommit";
      "searchCode"; "searchRepositories" ]
  | maintainer => [
      "getRepository"; "listBranches"; "getFileContent"; "createOrUpdateFile";
      "listPullRequests"; "getPullRequest"; "createPullRequest";
      "mergePullRequest"; "addPullRequestComment";
      "listIssues"; "getIssue"; "createIssue"; "addIssueComment"; "closeIssue";
      "listCommits"; "getCommit";
      "searchCode"; "searchRepositories" ]
  end.

(** [GithubToolPreset | GithubToolPreset[]] *)
Inductive PresetSelector :=
| OnePreset (p : GithubToolPreset)
| PresetArray (ps : list GithubToolPreset).

Record GithubToolsOptions := {
  token : string;
  requireApproval : option ApprovalConfig;
  preset : option PresetSelector
}.

Definition resolveApproval (toolName : GithubWriteToolName.t)
  (config : ApprovalConfig) : bool :=
  match config with
  | ApprovalBool b => b
  | ApprovalObject m =>
      default true (m !! GithubWriteToolName.to_string toolName)
  end.

(** A preset name is a non-empty string and an array is an object: every
    selector is truthy, so [if (!preset) return null] never returns. *)
Definition selector_truthy (preset : PresetSelector) : bool := true.

Definition resolvePresetTools (preset : PresetSelector)
  : option (gset string) :=
  if negb (selector_truthy preset) then None
  else
    let presets :=
      match preset with PresetArray ps => ps | OnePreset p => [p] end in
    Some (fold_left
            (λ tools p, fold_left (λ tools t, {[ t ]} ∪ tools) (PRESET_TOOLS p) tools)
            presets ∅).

Section Composer.
Context {imports : Imports}.

(** The object literal [allTools], given the handle and the [approval]
    closure. *)
Definition allTools (octokit : Octokit)
  (approval : GithubWriteToolName.t → option ToolOptions.t) : Registry :=
  [ ("getRepository", getRepository octokit);
    ("listBranches", listBranches octokit);
    ("getFileContent", getFileContent octokit);
    ("listPullRequests", listPullRequests octokit);
    ("getPullRequest", getPullRequest octokit);
    ("listIssues", listIssues octokit);
    ("getIssue", getIssue octokit);
    ("searchCode", searchCode octokit);
    ("searchRepositories", searchRepositories octokit);
    ("listCommits", listCommits octokit);
    ("getCommit", getCommit octokit);
    ("createOrUpdateFile",
      createOrUpdateFile octokit
        (approval GithubWriteToolName.createOrUpdateFile));
    ("createPullRequest",
      createPullRequest octokit
        (approval GithubWriteToolName.createPullRequest));
    ("mergePullRequest",
      mergePullRequest octokit
        (approval GithubWriteToolName.mergePullRequest));
    ("addPullRequestComment",
      addPullRequestComment octokit
        (approval GithubWriteToolName.addPullRequestComment));
    ("createIssue",
      createIssue octokit (approval GithubWriteToolName.createIssue));
    ("addIssueComment",
      addIssueComment octokit (approval GithubWriteToolName.addIssueComment));
    ("closeIssue",
      closeIssue octokit (approval GithubWriteToolName.closeIssue)) ].

Definition createGithubTools (options : GithubToolsOptions) : Registry :=
  let requireApproval :=
    default (ApprovalBool true) (requireApproval options) in
  let octokit := createOctokit (token options) in
  let approval := λ name,
    Some {| ToolOptions.needsApproval :=
              Some (resolveApproval name requireApproval) |} in
  let allowed :=
    match preset options with
    | Some preset => resolvePresetTools preset
    | None => None
    end in
  let allTools := allTools octokit approval in
  match allowed with
  | None => allTools
  | Some allowed =>
      Object_fromEntries
        (filter (λ e, e.1 ∈ allowed) (Object_entries allTools))
  end.

End Composer.

(** *** The composer before presets were introduced *)

Module Legacy.

Record GithubToolsOptions := {
  token : string;
  requireApproval : option ApprovalConfig
}.

Section Composer.
Context {imports : Imports}.

Definition createGithubTools (options : GithubToolsOptions) : Registry :=
  let requireApproval :=
    default (ApprovalBool true) (requireApproval options) in
  let octokit := createOctokit (token options) in
  let approval := λ name,
    Some {| ToolOptions.needsApproval :=
              Some (resolveApproval name requireApproval) |} in
  [ ("getRepository", getRepository octokit);
    ("listBranches", listBranches octokit);
    ("getFileContent", getFileContent octokit);
    ("listPullRequests", listPullRequests octokit);
    ("getPullRequest", getPullRequest octokit);
    ("listIssues", listIssues octokit);
    ("getIssue", getIssue octokit);
    ("searchCode", searchCode octokit);
    ("searchRepositories", searchRepositories octokit);
    ("listCommits", listCommits octokit);
    ("getCommit", getCommit octokit);
    ("createOrUpdateFile",
      createOrUpdateFile octokit
        (approval GithubWriteToolName.createOrUpdateFile));
    ("createPullRequest",
      createPullRequest octokit
        (approval GithubWriteToolName.createPullRequest));
    ("mergePullRequest",
      mergePullRequest octokit
        (approval GithubWriteToolName.mergePullRequest));
    ("addPullRequestComment",
      addPullRequestComment octokit
        (approval GithubWriteToolName.addPullRequestComment));
    ("createIssue",
      createIssue octokit (approval GithubWriteToolName.createIssue));
    ("addIssueComment",
      addIssueComment octokit
        (approval GithubWriteToolName.addIssueComment));
    ("closeIssue",
      closeIssue octokit (approval GithubWriteToolName.closeIssue)) ].

End Composer.

End Legacy.

(** *** The 18 tool names *)

Definition tool_names : list string :=
  [ "getRepository"; "listBranches"; "getFileContent"; "listPullRequests";
    "getPullRequest"; "listIssues"; "getIssue"; "searchCode";
    "searchRepositories"; "listCommits"; "getCommit"; "createOrUpdateFile";
    "createPullRequest"; "mergePullRequest"; "addPullRequestComment";
    "createIssue"; "addIssueComment"; "closeIssue" ].

(** The members of a preset, and of a selector: the union of the members of
    its presets. *)
Definition preset_set (p : GithubToolPreset) : gset string :=
  list_to_set (PRESET_TOOLS p).

Definition selected (preset : PresetSelector) : gset string :=
  match preset with
  | OnePreset p => preset_set p
  | PresetArray ps => ⋃ (preset_set <$> ps)
  end.

(** The names of the mutating tools. *)
Definition write_tool_names : list string :=
  GithubWriteToolName.to_string <$> GithubWriteToolName.all.

(** The spec's scenario [{ mergePullRequest: true, createIssue: false }]. *)
Definition scenario_approval : gmap string bool :=
  <[ "mergePullRequest" := true ]> (<[ "createIssue" := false ]> ∅).

(** ** Sample data

    A composer needs the imported tool bodies and a run needs a remote; the
    examples below use these. *)

Definition sample_imports : Imports := λ _, {|
  body_description := "";
  body_input := unit;
  body_output := unit;
  body_execute := λ _ _, mret tt
|}.

Definition sample_sha : string := "0123456789abcdef0123456789ABCDEF01234567".

Definition sample_repository : Rest.Repository := {|
  Rest.repo_name := "github-tools";
  Rest.repo_full_name := "HugoRCD/github-tools";
  Rest.repo_description := None;
  Rest.repo_html_url := "https://github.com/HugoRCD/github-tools";
  Rest.repo_clone_url := "https://github.com/HugoRCD/github-tools.git";
  Rest.repo_ssh_url := "git@github.com:HugoRCD/github-tools.git";
  Rest.repo_default_branch := "main";
  Rest.repo_stargazers_count := 0;
  Rest.repo_forks_count := 0;
  Rest.repo_open_issues_count := 0;
  Rest.repo_language := Some "TypeScript";
  Rest.repo_private := false;
  Rest.repo_created_at := "2025-06-01T00:00:00Z";
  Rest.repo_updated_at := "2025-06-01T00:00:00Z";
  Rest.repo_parent := None
|}.

Definition sample_listing : list Rest.ContentNode :=
  [ {| Rest.node_name := "src"; Rest.node_type := "dir";
       Rest.node_path := "src"; Rest.node_sha := sample_sha;
       Rest.node_size := 0; Rest.node_content := "" |};
    {| Rest.node_name := "README.md"; Rest.node_type := "file";
       Rest.node_path := "README.md"; Rest.node_sha := sample_sha;
       Rest.node_size := 2; Rest.node_content := "" |} ].

Definition not_found : RequestError :=
  {| status := 404; message := "Not Found" |}.

(** A remote that counts the calls it has answered. *)
Definition sample_remote : Remote nat := λ c n,
  (match c as c0 return RequestError + Response c0 with
   | repos_get _ _ _ => inr sample_repository
   | repos_getContent _ _ _ _ _ => inr (Rest.ContentArray sample_listing)
   | git_getRef _ _ _ ref =>
       inr {| Rest.ref_ref := "refs/" +:+ ref;
              Rest.ref_object_sha := sample_sha;
              Rest.ref_url := "" |}
   | git_createRef _ _ _ ref sha =>
       inr {| Rest.ref_ref := ref; Rest.ref_object_sha := sha;
              Rest.ref_url := "" |}
   | _ => inl not_found
   end, S n).

Definition sample_octokit : Octokit := createOctokit "ghp_token".

Definition branch_from_default : CreateBranch.Input := {|
  CreateBranch.owner := "HugoRCD"; CreateBranch.repo := "github-tools";
  CreateBranch.branch := "feature"; CreateBranch.from := None
|}.

Definition branch_from_develop : CreateBranch.Input := {|
  CreateBranch.owner := "HugoRCD"; CreateBranch.repo := "github-tools";
  CreateBranch.branch := "feature"; CreateBranch.from := Some "develop"
|}.

Definition branch_from_sha : CreateBranch.Input := {|
  CreateBranch.owner := "HugoRCD"; CreateBranch.repo := "github-tools";
  CreateBranch.branch := "feature"; CreateBranch.from := Some sample_sha
|}.

Definition listing_input : GetFileContent.Input := {|
  GetFileContent.owner := "HugoRCD"; GetFileContent.repo := "github-tools";
  GetFileContent.path := ""; GetFileContent.ref := None
|}.

(** ** The chat handler: the tools handed to the model

    [server/api/chats/[id].post.ts] takes the token of the request body, or
    else the one of the runtime configuration, builds the GitHub tools when
    there is a token, and spreads them after its own two tools.  The two
    tools and what the composer imports are parameters. *)

Module Chat.

Section Handler.
Context {imports : Imports} (weatherTool chartTool : Tool).

(** [githubToken ?? configToken] *)
Definition token (githubToken configToken : option string) : option string :=
  match githubToken with
  | Some t => Some t
  | None => configToken
  end.

(** [token ? createGithubTools({ token }) : {}] *)
Definition githubTools (githubToken configToken : option string) : Registry :=
  let token := token githubToken configToken in
  if truthy token then
    createGithubTools (Build_GithubToolsOptions (default "" token) None None)
  else [].

(** [{ weather: weatherTool, chart: chartTool, ...githubTools }] *)
Definition tools (githubToken configToken : option string) : Registry :=
  fold_left (λ o e, set_property o e.1 e.2)
    (Object_entries (githubTools githubToken configToken))
    [("weather", weatherTool); ("chart", chartTool)].

(** [stepCountIs(token ? 20 : 5)] *)
Definition step_limit (githubToken configToken : option string) : Z :=
  if truthy (token githubToken configToken) then 20 else 5.

End Handler.

End Chat.

(** ** Vocabulary of the properties *)

(** The handle a call is made on. *)
Definition call_octokit (c : Call) : Octokit :=
  match c with
  | repos_get o _ _ | repos_listBranches o _ _ _ | repos_getContent o _ _ _ _
  | git_getRef o _ _ _ | git_createRef o _ _ _ _ | repos_createFork o _ _ _ _
  | repos_createInOrg o _ _ | repos_createForAuthenticatedUser o _
  | repos_createOrUpdateFileContents o _ _ _ _ _ _ _
  | rest_request o _ _ _ _ => o
  end.

(** The calls of the repository tools that only read the remote. *)
Definition is_read_call (c : Call) : bool :=
  match c with
  | repos_get _ _ _ | repos_listBranches _ _ _ _ | repos_getContent _ _ _ _ _
  | git_getRef _ _ _ _ => true
  | _ => false
  end.

(** Text with every unpaired surrogate replaced by U+FFFD, as
    [String.prototype.toWellFormed] gives it. *)
Fixpoint toWellFormed (us : utf16) : utf16 :=
  match us with
  | [] => []
  | u :: r =>
      if is_high_surrogate u then
        match r with
        | l :: r' =>
            if is_low_surrogate l then u :: l :: toWellFormed r'
            else U_FFFD :: toWellFormed r
        | [] => [U_FFFD]
        end
      else if is_low_surrogate u then U_FFFD :: toWellFormed r
      else u :: toWellFormed r
  end.



(** A character of base64 text: of the alphabet, or the padding. *)
Definition is_base64_char (c : ascii) : bool :=
  existsb (Ascii.eqb c) (list_ascii_of_string Buffer.alphabet)
  || Ascii.eqb c "=".

(** More sample data. *)

Definition sample_file : Rest.ContentNode := {|
  Rest.node_name := "README.md"; Rest.node_type := "file";
  Rest.node_path := "README.md"; Rest.node_sha := sample_sha;
  Rest.node_size := 2; Rest.node_content := "aGk="
|}.

(** A remote that holds one file. *)
Definition file_remote : Remote nat := λ c n,
  (match c as c0 return RequestError + Response c0 with
   | repos_getContent _ _ _ _ _ => inr (Rest.ContentObject sample_file)
   | _ => inl not_found
   end, S n).

Definition readme_input : GetFileContent.Input := {|
  GetFileContent.owner := "HugoRCD"; GetFileContent.repo := "github-tools";
  GetFileContent.path := "README.md"; GetFileContent.ref := None
|}.

Definition sample_branches : list Rest.Branch :=
  [ {| Rest.branch_name := "main"; Rest.branch_commit_sha := sample_sha;
       Rest.branch_protected := true |};
    {| Rest.branch_name := "develop"; Rest.branch_commit_sha := sample_sha;
       Rest.branch_protected := false |} ].

(** A remote that lists two branches. *)
Definition branches_remote : Remote nat := λ c n,
  (match c as c0 return RequestError + Response c0 with
   | repos_listBranches _ _ _ _ => inr sample_branches
   | _ => inl not_found
   end, S n).

Definition branches_input : ListBranches.Input := {|
  ListBranches.owner := "HugoRCD"; ListBranches.repo := "github-tools";
  ListBranches.perPage := 30
|}.

Definition new_repository_input (org : option string)
  : CreateRepository.Input := {|
  CreateRepository.name := "playground";
  CreateRepository.description := None;
  CreateRepository.isPrivate := true;
  CreateRepository.autoInit := false;
  CreateRepository.gitignoreTemplate := None;
  CreateRepository.licenseTemplate := None;
  CreateRepository.org := org
|}.

(** ** Proof automation

    Arithmetic with quotients and remainders by constants, and the
    comparisons the encoders and decoders branch on. *)

(** Linear arithmetic after naming quotients and remainders. *)
Ltac euclid := Z.div_mod_to_equations; lia.

(** Settle the comparisons of the goal that the hypotheses decide. *)
Ltac settle :=
  repeat match goal with
  | |- context [?a <=? ?b] =>
      first [ rewrite (proj2 (Z.leb_le a b)) by euclid
            | rewrite (proj2 (Z.leb_gt a b)) by euclid ]
  | |- context [?a <? ?b] =>
      first [ rewrite (proj2 (Z.ltb_lt a b)) by euclid
            | rewrite (proj2 (Z.ltb_ge a b)) by euclid ]
  | |- context [?a =? ?b] =>
      first [ rewrite (proj2 (Z.eqb_eq a b)) by euclid
            | rewrite (proj2 (Z.eqb_neq a b)) by euclid ]
  end.

(** Split on the equalities that choose the range of a continuation byte. *)
Ltac split_eq :=
  repeat match goal with
  | |- context [?a =? ?b] => destruct (Z.eqb_spec a b)
  end.

(** Unfold the classes of UTF-16 units. *)
Ltac unfold_units :=
  unfold is_code_unit, is_high_surrogate, is_low_surrogate, is_scalar,
    Buffer.utf16_units in *.

(** Split on every comparison of the goal. *)
Ltac split_units :=
  repeat match goal with
  | |- context [?a <=? ?b] => destruct (Z.leb_spec a b)
  | |- context [?a <? ?b] => destruct (Z.ltb_spec a b)
  end.

(** ** Properties of objects and presets *)

Lemma set_property_fresh o k v :
  k ∉ Object_keys o → set_property o k v = o ++ [(k, v)].
Proof.
  unfold Object_keys. induction o as [|[k' v'] o IH]; simpl; [done|].
  intros Hk. apply not_elem_of_cons in Hk as [Hne Hk].
  destruct (String.eqb_spec k' k) as [->|_]; [done|]. by rewrite IH.
Qed.

Lemma fold_set_property es : ∀ o,
  NoDup (Object_keys (o ++ es)) →
  fold_left (λ o e, set_property o e.1 e.2) es o = o ++ es.
Proof.
  unfold Object_keys.
  induction es as [|[k v] es IH]; intros o Hnd; simpl.
  - by rewrite app_nil_r.
  - rewrite set_property_fresh.
    + rewrite IH; rewrite <- app_assoc; done.
    + rewrite fmap_app in Hnd. apply NoDup_app in Hnd as (_ & Hd & _).
      intros Hin. apply (Hd k Hin). simpl. left.
Qed.

(** Rebuilding an object from entries with distinct keys gives these
    entries, in their order. *)
Lemma Object_fromEntries_entries es :
  NoDup (Object_keys es) → Object_fromEntries es = es.
Proof. intros Hnd. unfold Object_fromEntries. by rewrite fold_set_property. Qed.

Lemma filter_keys_NoDup (P : string * Tool → Prop) `{!∀ e, Decision (P e)}
  (o : Registry) :
  NoDup (Object_keys o) → NoDup (Object_keys (filter P o)).
Proof.
  intros Hnd. eapply sublist_NoDup; [exact Hnd|].
  unfold Object_keys. apply fmap_sublist, sublist_filter.
Qed.

Lemma key_set_filter (allowed : gset string) (o : Registry) :
  key_set (filter (λ e, e.1 ∈ allowed) o) = key_set o ∩ allowed.
Proof.
  unfold key_set, Object_keys. apply set_eq. intros k.
  rewrite elem_of_intersection, !elem_of_list_to_set, !list_elem_of_fmap.
  split.
  - intros ([k' t] & -> & [Hk Hin]%list_elem_of_filter). split; [|done].
    by exists (k', t).
  - intros [([k' t] & -> & Hin) Hk]. exists (k', t). split; [done|].
    by apply list_elem_of_filter.
Qed.

Lemma filter_no_key (allowed : gset string) (o : Registry) :
  allowed = ∅ → filter (λ e, e.1 ∈ allowed) o = [].
Proof.
  intros ->. induction o as [|e o IH]; [done|].
  rewrite filter_cons_False; [done|]. apply not_elem_of_empty.
Qed.

Lemma get_property_filter (allowed : gset string) (o : Registry) k :
  get_property (filter (λ e, e.1 ∈ allowed) o) k =
  if bool_decide (k ∈ allowed) then get_property o k else None.
Proof.
  induction o as [|[k' t] o IH]; [simpl; by case_bool_decide|].
  rewrite filter_cons.
  destruct (decide ((k', t).1 ∈ allowed)) as [Hin|Hout]; simpl in *.
  - destruct (String.eqb_spec k' k) as [->|Hne].
    + by rewrite bool_decide_eq_true_2.
    + exact IH.
  - rewrite IH. destruct (String.eqb_spec k' k) as [->|Hne]; [|done].
    by rewrite bool_decide_eq_false_2.
Qed.

Lemma approval_flags_cons k' t (o : Registry) k :
  approval_flags ((k', t) :: o) k =
  (if String.eqb k' k then option_list (needsApproval t) else [])
  ++ approval_flags o k.
Proof.
  unfold approval_flags. simpl.
  destruct (String.eqb k' k); [|done]. by destruct (needsApproval t).
Qed.

Lemma approval_flags_filter (allowed : gset string) (o : Registry) k :
  approval_flags (filter (λ e, e.1 ∈ allowed) o) k =
  if bool_decide (k ∈ allowed) then approval_flags o k else [].
Proof.
  induction o as [|[k' t] o IH]; [simpl; by case_bool_decide|].
  rewrite filter_cons.
  destruct (decide ((k', t).1 ∈ allowed)) as [Hin|Hout];
    rewrite ?approval_flags_cons, IH; simpl in *.
  - destruct (String.eqb_spec k' k) as [->|Hne].
    + by rewrite bool_decide_eq_true_2.
    + by case_bool_decide.
  - destruct (String.eqb_spec k' k) as [->|Hne]; [|done].
    by rewrite bool_decide_eq_false_2.
Qed.

Lemma fold_add (ts : list string) : ∀ tools : gset string,
  fold_left (λ tools t, {[ t ]} ∪ tools) ts tools = list_to_set ts ∪ tools.
Proof.
  induction ts as [|t ts IH]; intros tools; simpl.
  - set_solver.
  - rewrite IH. set_solver.
Qed.

Lemma fold_presets (ps : list GithubToolPreset) : ∀ tools : gset string,
  fold_left
    (λ tools p, fold_left (λ tools t, {[ t ]} ∪ tools) (PRESET_TOOLS p) tools)
    ps tools
  = ⋃ (preset_set <$> ps) ∪ tools.
Proof.
  induction ps as [|p ps IH]; intros tools; simpl.
  - set_solver.
  - rewrite IH, fold_add. unfold preset_set. set_solver.
Qed.

Lemma resolvePresetTools_array ps :
  resolvePresetTools (PresetArray ps) = Some (⋃ (preset_set <$> ps)).
Proof.
  unfold resolvePresetTools. simpl. rewrite fold_presets. f_equal. set_solver.
Qed.

Lemma resolvePresetTools_one p :
  resolvePresetTools (OnePreset p) = Some (preset_set p).
Proof.
  unfold resolvePresetTools. simpl. rewrite fold_add. f_equal.
  unfold preset_set. set_solver.
Qed.

Lemma NoDup_tool_names : NoDup tool_names.
Proof. apply (bool_decide_unpack _). vm_compute. exact I. Qed.

Lemma preset_set_known p : preset_set p ⊆ list_to_set tool_names.
Proof.
  unfold preset_set. intros k Hk. apply elem_of_list_to_set in Hk.
  apply elem_of_list_to_set.
  destruct p; simpl in Hk; set_solver.
Qed.

(** ** Properties of the composer *)

Section ComposerProperties.
Context {imports : Imports}.

Lemma keys_allTools octokit approval :
  Object_keys (allTools octokit approval) = tool_names.
Proof. reflexivity. Qed.

(** What the composer returns, by selector. *)
Lemma createGithubTools_omitted tok cfg :
  createGithubTools {| token := tok; requireApproval := cfg; preset := None |}
  = allTools (createOctokit tok)
      (λ name, Some {| ToolOptions.needsApproval :=
          Some (resolveApproval name (default (ApprovalBool true) cfg)) |}).
Proof. reflexivity. Qed.

Lemma createGithubTools_selected tok cfg sel allowed :
  resolvePresetTools sel = Some allowed →
  createGithubTools
    {| token := tok; requireApproval := cfg; preset := Some sel |}
  = filter (λ e, e.1 ∈ allowed)
      (allTools (createOctokit tok)
         (λ name, Some {| ToolOptions.needsApproval :=
            Some (resolveApproval name (default (ApprovalBool true) cfg)) |})).
Proof.
  intros Hsel. unfold createGithubTools.
  cbn [preset token requireApproval]. rewrite Hsel.
  apply Object_fromEntries_entries, filter_keys_NoDup.
  rewrite keys_allTools. apply NoDup_tool_names.
Qed.

Lemma resolvePresetTools_selected sel :
  resolvePresetTools sel = Some (selected sel).
Proof.
  destruct sel; [apply resolvePresetTools_one|apply resolvePresetTools_array].
Qed.

Lemma key_set_allTools octokit approval :
  key_set (allTools octokit approval) = list_to_set tool_names.
Proof. reflexivity. Qed.

Lemma key_set_selected tok cfg sel :
  key_set (createGithubTools
    {| token := tok; requireApproval := cfg; preset := Some sel |})
  = list_to_set tool_names ∩ selected sel.
Proof.
  rewrite (createGithubTools_selected _ _ _ _ (resolvePresetTools_selected sel)).
  by rewrite key_set_filter, key_set_allTools.
Qed.

(** C1. For every token, approval configuration and preset selector (or
    none), the keys of the registry are among the 18 tool names; without a
    selector they are exactly the 18 names, in the order of the object
    literal. *)
Theorem createGithubTools_keys tok cfg sel :
  key_set (createGithubTools
    {| token := tok; requireApproval := cfg; preset := sel |})
    ⊆ list_to_set tool_names
  ∧ key_set (createGithubTools
      {| token := tok; requireApproval := cfg; preset := None |})
    = list_to_set tool_names
  ∧ Object_keys (createGithubTools
      {| token := tok; requireApproval := cfg; preset := None |})
    = tool_names
  ∧ NoDup tool_names ∧ length tool_names = 18%nat.
Proof.
  split; [|split; [|split; [|split]]]; try reflexivity.
  - destruct sel as [sel|]; [|done].
    rewrite key_set_selected. apply intersection_subseteq_l.
  - apply NoDup_tool_names.
Qed.

(** C2. The registry built with [preset: [P1, P2]] has the keys of the
    registry of [P1] together with the keys of the registry of [P2], and
    the registry built with [preset: [P2, P1]] is the same registry. *)
Theorem createGithubTools_preset_union tok cfg P1 P2 :
  key_set (createGithubTools
    {| token := tok; requireApproval := cfg;
       preset := Some (PresetArray [P1; P2]) |})
  = key_set (createGithubTools
      {| token := tok; requireApproval := cfg;
         preset := Some (OnePreset P1) |})
    ∪ key_set (createGithubTools
      {| token := tok; requireApproval := cfg;
         preset := Some (OnePreset P2) |})
  ∧ createGithubTools
      {| token := tok; requireApproval := cfg;
         preset := Some (PresetArray [P1; P2]) |}
    = createGithubTools
      {| token := tok; requireApproval := cfg;
         preset := Some (PresetArray [P2; P1]) |}.
Proof.
  split.
  - rewrite !key_set_selected. simpl. set_solver.
  - rewrite !(createGithubTools_selected _ _ _ _
                (resolvePresetTools_selected _)).
    replace (selected (PresetArray [P1; P2]))
      with (selected (PresetArray [P2; P1])); [done|].
    simpl. set_solver.
Qed.

(** Any reordering of a preset array gives the same registry. *)
Lemma createGithubTools_preset_order tok cfg ps ps' :
  ps ≡ₚ ps' →
  createGithubTools
    {| token := tok; requireApproval := cfg; preset := Some (PresetArray ps) |}
  = createGithubTools
    {| token := tok; requireApproval := cfg; preset := Some (PresetArray ps') |}.
Proof.
  intros Hp.
  rewrite !(createGithubTools_selected _ _ _ _
              (resolvePresetTools_selected _)).
  replace (selected (PresetArray ps)) with (selected (PresetArray ps')); [done|].
  simpl. apply set_eq. intros k. rewrite !elem_of_union_list.
  by setoid_rewrite Hp.
Qed.

(** C8. With the selector omitted, the composer with presets returns the
    registry of the composer without presets: the same entries in the same
    order, hence the same keys and, under every name, the same approval
    flags. *)
Theorem createGithubTools_refines_legacy tok cfg :
  let new := createGithubTools
    {| token := tok; requireApproval := cfg; preset := None |} in
  let old := Legacy.createGithubTools
    {| Legacy.token := tok; Legacy.requireApproval := cfg |} in
  new = old
  ∧ key_set new = key_set old
  ∧ ∀ name, approval_flags new name = approval_flags old name.
Proof. by intros new old. Qed.

(** C9. An empty preset array is a selector: the registry has no entry,
    where an omitted selector gives all 18. *)
Theorem createGithubTools_empty_array tok cfg :
  createGithubTools
    {| token := tok; requireApproval := cfg; preset := Some (PresetArray []) |}
  = []
  ∧ key_set (createGithubTools
      {| token := tok; requireApproval := cfg;
         preset := Some (PresetArray []) |}) = ∅
  ∧ length (createGithubTools
      {| token := tok; requireApproval := cfg; preset := None |}) = 18%nat.
Proof.
  assert (createGithubTools
    {| token := tok; requireApproval := cfg; preset := Some (PresetArray []) |}
    = []) as Hempty.
  { rewrite (createGithubTools_selected _ _ _ _
               (resolvePresetTools_selected _)).
    by apply filter_no_key. }
  by rewrite Hempty.
Qed.

Lemma write_tool_name_known w :
  GithubWriteToolName.to_string w ∈ (list_to_set tool_names : gset string).
Proof. apply elem_of_list_to_set. destruct w; simpl; set_solver. Qed.

Lemma approval_flags_allTools octokit (f : GithubWriteToolName.t → bool) w :
  approval_flags
    (allTools octokit
       (λ name, Some {| ToolOptions.needsApproval := Some (f name) |}))
    (GithubWriteToolName.to_string w)
  = [f w].
Proof. by destruct w. Qed.

Lemma allTools_read_only octokit approval name t :
  (name, t) ∈ allTools octokit approval →
  name ∉ write_tool_names → needsApproval t = None.
Proof.
  unfold allTools, write_tool_names. simpl. intros Hin Hname.
  repeat (apply elem_of_cons in Hin as [Hin|Hin];
          [injection Hin as -> ->; first [reflexivity | set_solver]|]).
  by apply elem_of_nil in Hin.
Qed.

(** C3. Under a uniform configuration [b] the resolved flag of every
    mutating tool is [b]; so is the flag the composer puts on the tool. *)
Theorem resolveApproval_uniform t b :
  resolveApproval t (ApprovalBool b) = b
  ∧ ∀ tok, approval_flags
      (createGithubTools
         {| token := tok; requireApproval := Some (ApprovalBool b);
            preset := None |})
      (GithubWriteToolName.to_string t) = [b].
Proof. split; [done|]. intros tok. by destruct t. Qed.

(** C5, as amended. In every registry, a mutating tool that is a key of
    the registry carries exactly one flag, the one resolved from the
    approval configuration, and a mutating tool that is not a key carries
    none; without a preset selector all 7 mutating tools carry their
    resolved flag; a tool of the registry whose name is not one of the 7
    carries no flag. *)
Theorem createGithubTools_approval_flags tok cfg sel :
  let registry := createGithubTools
    {| token := tok; requireApproval := cfg; preset := sel |} in
  let config := default (ApprovalBool true) cfg in
  (∀ w, approval_flags registry (GithubWriteToolName.to_string w)
        = if bool_decide (GithubWriteToolName.to_string w ∈ key_set registry)
          then [resolveApproval w config] else [])
  ∧ (sel = None →
     ∀ w, approval_flags registry (GithubWriteToolName.to_string w)
          = [resolveApproval w config])
  ∧ (∀ name t, (name, t) ∈ registry → name ∉ write_tool_names →
               needsApproval t = None).
Proof.
  intros registry config. subst registry. split; [|split].
  - intros w. destruct sel as [sel|].
    + rewrite key_set_selected.
      rewrite (createGithubTools_selected _ _ _ _
                 (resolvePresetTools_selected sel)).
      rewrite approval_flags_filter, approval_flags_allTools.
      apply (f_equal (λ b : bool, if b then _ else _)).
      apply bool_decide_ext. pose proof (write_tool_name_known w).
      set_solver.
    + rewrite createGithubTools_omitted, approval_flags_allTools.
      rewrite bool_decide_eq_true_2; [done|].
      rewrite key_set_allTools. apply write_tool_name_known.
  - intros -> w.
    by rewrite createGithubTools_omitted, approval_flags_allTools.
  - intros name t. destruct sel as [sel|].
    + rewrite (createGithubTools_selected _ _ _ _
                 (resolvePresetTools_selected sel)).
      intros [_ Hin]%list_elem_of_filter.
      by apply (allTools_read_only _ _ _ _ Hin).
    + rewrite createGithubTools_omitted. apply allTools_read_only.
Qed.

(** The mutating tools imported by index.ts follow their options like the
    ones of tools/repository.ts. *)
Lemma imported_write_tool_default t octokit :
  needsApproval (write_tool t octokit None) = Some true
  ∧ needsApproval (write_tool t octokit (Some ToolOptions.empty)) = Some true.
Proof. done. Qed.

End ComposerProperties.

(** ** Properties of the approval resolver and of the tool factories *)

(** C4. Under a per-tool configuration the resolved flag is the entry of the
    tool when there is one, and [true] when there is none. *)
Theorem resolveApproval_partial t (m : gmap string bool) :
  (∀ b, m !! GithubWriteToolName.to_string t = Some b →
        resolveApproval t (ApprovalObject m) = b)
  ∧ (m !! GithubWriteToolName.to_string t = None →
     resolveApproval t (ApprovalObject m) = true).
Proof. unfold resolveApproval. by split; [intros b ->| intros ->]. Qed.

(** The scenario object has an entry for [createIssue] and none for
    [addIssueComment]. *)
Lemma resolveApproval_partial_witness :
  resolveApproval GithubWriteToolName.createIssue
    (ApprovalObject scenario_approval) = false
  ∧ resolveApproval GithubWriteToolName.addIssueComment
      (ApprovalObject scenario_approval) = true.
Proof.
  split.
  - apply (proj1 (resolveApproval_partial GithubWriteToolName.createIssue
                    scenario_approval)).
    vm_compute. reflexivity.
  - apply (proj2 (resolveApproval_partial GithubWriteToolName.addIssueComment
                    scenario_approval)).
    vm_compute. reflexivity.
Defined.

(** An entry of another tool does not change the flag of a tool. *)
Lemma resolveApproval_insert t t' b (m : gmap string bool) :
  resolveApproval t
    (ApprovalObject (<[GithubWriteToolName.to_string t' := b]> m))
  = if decide (t = t') then b else resolveApproval t (ApprovalObject m).
Proof.
  unfold resolveApproval. case_decide as Ht.
  - subst. by rewrite lookup_insert_eq.
  - rewrite lookup_insert_ne; [done|]. by destruct t, t'.
Qed.

(** C10. A mutating tool factory of tools/repository.ts called without
    options, or with options that have no [needsApproval], gives a tool that
    needs approval; an explicit [needsApproval] is the tool's flag. *)
Theorem write_factories_need_approval_by_default octokit :
  Forall (λ factory : Octokit → option ToolOptions.t → Tool,
    needsApproval (factory octokit None) = Some true
    ∧ needsApproval (factory octokit (Some ToolOptions.empty)) = Some true
    ∧ ∀ b, needsApproval
             (factory octokit (Some {| ToolOptions.needsApproval := Some b |}))
           = Some b)
    [createBranch; forkRepository; createRepository; createOrUpdateFile].
Proof. repeat constructor. Qed.

(** The spec's scenario: with [{ mergePullRequest: true, createIssue: false }]
    and no preset, all 18 tools, [createIssue] without approval,
    [mergePullRequest] and the unspecified [addIssueComment] with. *)
Example scenario_registry :
  let registry := createGithubTools (imports := sample_imports)
    {| token := "ghp_token";
       requireApproval := Some (ApprovalObject scenario_approval);
       preset := None |} in
  Object_keys registry = tool_names
  ∧ approval_flags registry "createIssue" = [false]
  ∧ approval_flags registry "mergePullRequest" = [true]
  ∧ approval_flags registry "addIssueComment" = [true].
Proof. vm_compute. done. Qed.

(** The spec's scenario [preset: 'issue-triage']. *)
Example scenario_issue_triage :
  Object_keys (createGithubTools (imports := sample_imports)
    {| token := "ghp_token"; requireApproval := None;
       preset := Some (OnePreset issue_triage) |})
  = [ "getRepository"; "listIssues"; "getIssue"; "searchCode";
      "searchRepositories"; "createIssue"; "addIssueComment"; "closeIssue" ].
Proof. vm_compute. done. Qed.

(** C5, as stated, fails: the registry of the ['repo-explorer'] preset has no
    mutating tool, so [createIssue] has no approval flag in it. *)
Lemma repo_explorer_registry_has_no_flag :
  ¬ ∀ w, ∃ b,
      approval_flags
        (createGithubTools (imports := sample_imports)
           {| token := "ghp_token"; requireApproval := None;
              preset := Some (OnePreset repo_explorer) |})
        (GithubWriteToolName.to_string w) = [b].
Proof.
  intros Hall. destruct (Hall GithubWriteToolName.createIssue) as [b Hb].
  vm_compute in Hb. discriminate Hb.
Qed.

(** Without a preset [closeIssue] carries its resolved flag, and
    [getRepository] carries none. *)
Lemma createGithubTools_approval_flags_witness :
  approval_flags
    (createGithubTools (imports := sample_imports)
       {| token := "ghp_token"; requireApproval := None; preset := None |})
    "closeIssue" = [true]
  ∧ needsApproval (getRepository (createOctokit "ghp_token")) = None.
Proof.
  pose proof (createGithubTools_approval_flags (imports := sample_imports)
                "ghp_token" None None) as (_ & Hall & Hread).
  split.
  - exact (Hall eq_refl GithubWriteToolName.closeIssue).
  - apply (Hread "getRepository").
    + left.
    + apply (bool_decide_unpack _). vm_compute. exact I.
Defined.

(** ** Properties of the branch-creation tool *)

Lemma run_bind {S A B} (remote : Remote S) (m : Async A) (f : A → Async B) s :
  run remote (m ≫= f) s =
  match run remote m s with
  | (Fulfilled a, cs, s') =>
      let '(o, cs', s'') := run remote (f a) s' in (o, cs ++ cs', s'')
  | (Rejected e, cs, s') => (Rejected e, cs, s')
  end.
Proof.
  revert s. induction m as [a|c k IH]; intros s; simpl.
  - by destruct (run remote (f a) s) as [[o cs] s'].
  - destruct (remote c s) as [[e|r] s']; [done|].
    change (Async_bind f (k r)) with (k r ≫= f). rewrite IH.
    destruct (run remote (k r) s') as [[[a|e] cs] s'']; [|done].
    by destruct (run remote (f a) s'') as [[o cs'] s3].
Qed.

Lemma run_await {S} (remote : Remote S) c s :
  run remote (await c) s =
  match remote c s with
  | (inl e, s') => (Rejected e, [c], s')
  | (inr r, s') => (Fulfilled r, [c], s')
  end.
Proof. simpl. by destruct (remote c s) as [[e|r] s']. Qed.

(** C6. When [from] is not a 40-digit hexadecimal SHA, the ref name is
    resolved first and the branch is created from the SHA found.  With a
    branch named by [from]: one lookup of [heads/<from>], then the creation.
    With [from] omitted (or empty): the repository lookup, then the lookup of
    [heads/<default branch>], then the creation, and nothing else.  A
    rejected lookup ends the run before any creation. *)
Theorem createBranch_resolves_ref_first {S} (remote : Remote S) (s : S)
  octokit (i : CreateBranch.Input) :
  CreateBranch.needs_lookup (CreateBranch.from i) = true →
  let owner := CreateBranch.owner i in
  let repo := CreateBranch.repo i in
  let result := run remote (CreateBranch.execute octokit i) s in
  let create := λ sha,
    git_createRef octokit owner repo
      ("refs/heads/" +:+ CreateBranch.branch i) sha in
  (∀ source, CreateBranch.from i = Some source → source ≠ "" →
     let lookup := git_getRef octokit owner repo ("heads/" +:+ source) in
     (∀ e s1, remote lookup s = (inl e, s1) →
        result = (Rejected e, [lookup], s1))
     ∧ (∀ ref s1, remote lookup s = (inr ref, s1) →
        calls result = [lookup; create (Rest.ref_object_sha ref)]))
  ∧ (truthy (CreateBranch.from i) = false →
     let get := repos_get octokit owner repo in
     (∀ e s1, remote get s = (inl e, s1) → result = (Rejected e, [get], s1))
     ∧ (∀ r s1, remote get s = (inr r, s1) →
        let lookup :=
          git_getRef octokit owner repo
            ("heads/" +:+ Rest.repo_default_branch r) in
        (∀ e s2, remote lookup s1 = (inl e, s2) →
           result = (Rejected e, [get; lookup], s2))
        ∧ (∀ ref s2, remote lookup s1 = (inr ref, s2) →
           calls result = [get; lookup; create (Rest.ref_object_sha ref)]))).
Proof.
  intros Hneeds owner repo result create. subst result owner repo create.
  cbv zeta. unfold CreateBranch.execute. rewrite Hneeds. split.
  - intros source Hfrom Hsource.
    assert (truthy (CreateBranch.from i) = true) as ->.
    { rewrite Hfrom. simpl. by destruct (String.eqb_spec source ""). }
    rewrite Hfrom. simpl. split.
    + by intros e s1 ->.
    + intros ref s1 ->.
      by destruct (remote (git_createRef _ _ _ _ _) s1) as [[e|d] s2].
  - intros ->. simpl. split.
    + by intros e s1 ->.
    + intros r s1 ->. split.
      * by intros e s2 ->.
      * intros ref s2 ->.
        by destruct (remote (git_createRef _ _ _ _ _) s2) as [[e|d] s3].
Qed.

(** Against the sample remote: a branch from ["develop"], and a branch from
    the default branch. *)
Lemma createBranch_resolves_ref_first_witness :
  calls (run sample_remote
           (CreateBranch.execute sample_octokit branch_from_develop) 0%nat)
  = [ git_getRef sample_octokit "HugoRCD" "github-tools" "heads/develop";
      git_createRef sample_octokit "HugoRCD" "github-tools"
        "refs/heads/feature" sample_sha ]
  ∧ calls (run sample_remote
             (CreateBranch.execute sample_octokit branch_from_default) 0%nat)
    = [ repos_get sample_octokit "HugoRCD" "github-tools";
        git_getRef sample_octokit "HugoRCD" "github-tools" "heads/main";
        git_createRef sample_octokit "HugoRCD" "github-tools"
          "refs/heads/feature" sample_sha ].
Proof.
  split.
  - destruct (createBranch_resolves_ref_first sample_remote 0%nat
                sample_octokit branch_from_develop eq_refl) as [Hgiven _].
    destruct (Hgiven "develop" eq_refl) as [_ Hcalls]; [discriminate|].
    exact (Hcalls _ 1%nat eq_refl).
  - destruct (createBranch_resolves_ref_first sample_remote 0%nat
                sample_octokit branch_from_default eq_refl) as [_ Homitted].
    destruct (Homitted eq_refl) as [_ Hget].
    destruct (Hget sample_repository 1%nat eq_refl) as [_ Hcalls].
    exact (Hcalls _ 2%nat eq_refl).
Defined.

(** A [from] that is a SHA is used as it is: the creation is the only call. *)
Lemma createBranch_from_sha {S} (remote : Remote S) (s : S) octokit i sha :
  CreateBranch.from i = Some sha → matches_sha sha = true →
  calls (run remote (CreateBranch.execute octokit i) s)
  = [ git_createRef octokit (CreateBranch.owner i) (CreateBranch.repo i)
        ("refs/heads/" +:+ CreateBranch.branch i) sha ].
Proof.
  intros Hfrom Hsha. unfold CreateBranch.execute, CreateBranch.needs_lookup.
  rewrite Hfrom. simpl. rewrite Hsha.
  assert (sha ≠ "") as Hne by (intros ->; discriminate Hsha).
  destruct (String.eqb_spec sha "") as [?|_]; [done|]. simpl.
  by destruct (remote (git_createRef _ _ _ _ _) s) as [[e|d] s1].
Qed.

Example matches_sha_examples :
  matches_sha sample_sha = true
  ∧ matches_sha "main" = false
  ∧ matches_sha "0123456789abcdef0123456789abcdef0123456" = false
  ∧ matches_sha "0123456789abcdef0123456789abcdef012345678" = false
  ∧ matches_sha "g123456789abcdef0123456789abcdef01234567" = false
  ∧ CreateBranch.needs_lookup (Some "") = true
  ∧ CreateBranch.needs_lookup None = true
  ∧ CreateBranch.needs_lookup (Some sample_sha) = false.
Proof. vm_compute. done. Qed.

Example createBranch_run :
  run sample_remote (CreateBranch.execute sample_octokit branch_from_default)
    0%nat
  = (Fulfilled {| CreateBranch.ref := "refs/heads/feature";
                  CreateBranch.sha := sample_sha;
                  CreateBranch.url := "" |},
     [ repos_get sample_octokit "HugoRCD" "github-tools";
       git_getRef sample_octokit "HugoRCD" "github-tools" "heads/main";
       git_createRef sample_octokit "HugoRCD" "github-tools"
         "refs/heads/feature" sample_sha ],
     3%nat).
Proof. reflexivity. Qed.

(** ** Properties of the encodings *)

Section ListInduction.
Context {A : Type} (P : list A → Prop).

(** Induction three elements at a time, as the base64 encoder reads. *)
Lemma list_ind_triples :
  P [] → (∀ a, P [a]) → (∀ a b, P [a; b]) →
  (∀ a b c l, P l → P (a :: b :: c :: l)) →
  ∀ l, P l.
Proof.
  intros Hnil Hone Htwo Hstep l.
  cut (P l ∧ (∀ a, P (a :: l)) ∧ (∀ a b, P (a :: b :: l))); [tauto|].
  induction l as [|x l (IH0 & IH1 & IH2)]; [by auto|].
  split; [apply IH1|]. split; [intros a; apply IH2|].
  intros a b. by apply Hstep.
Qed.

(** Induction one or two elements at a time, as the UTF-16 reader reads. *)
Lemma list_ind_pairs :
  P [] → (∀ a, P [a]) →
  (∀ a b l, P l → P (b :: l) → P (a :: b :: l)) →
  ∀ l, P l.
Proof.
  intros Hnil Hone Hstep l.
  cut (P l ∧ ∀ a, P (a :: l)); [tauto|].
  induction l as [|x l (IH0 & IH1)]; [by auto|].
  split; [apply IH1|]. intros a. by apply Hstep.
Qed.
End ListInduction.

Lemma base64_char_inv n :
  0 ≤ n < 64 →
  Buffer.unbase64 (Buffer.base64_char n) = Some n
  ∧ Ascii.eqb (Buffer.base64_char n) "=" = false.
Proof.
  intros Hn. rewrite <- (Z2Nat.id n) by lia.
  assert (Z.to_nat n < 64)%nat as Hlt by lia.
  revert Hlt. generalize (Z.to_nat n). clear n Hn. intros m Hm.
  do 64 (destruct m as [|m]; [by vm_compute|]). lia.
Qed.

Lemma sextets_base64_char n r :
  0 ≤ n < 64 →
  Buffer.sextets (String (Buffer.base64_char n) r) = n :: Buffer.sextets r.
Proof.
  intros Hn. destruct (base64_char_inv n Hn) as [Hv Hpad].
  simpl. by rewrite Hpad, Hv.
Qed.

Lemma sextets_padding r : Buffer.sextets (String "=" r) = [].
Proof. reflexivity. Qed.

(** Decoding the base64 text of bytes gives the bytes. *)
Lemma from_base64_toString_base64 bs :
  Forall is_byte bs → Buffer.from_base64 (Buffer.toString_base64 bs) = bs.
Proof.
  unfold Buffer.from_base64, is_byte.
  induction bs as [|a|a b|a b c bs IH] using list_ind_triples; intros Hbs.
  - done.
  - apply Forall_cons in Hbs as [Ha _].
    cbn [Buffer.toString_base64].
    rewrite !sextets_base64_char by (Z.div_mod_to_equations; lia).
    cbn [Buffer.sextets Buffer.bytes_of_sextets Ascii.eqb Bool.eqb].
    f_equal. Z.div_mod_to_equations; lia.
  - apply Forall_cons in Hbs as [Ha [Hb _]%Forall_cons].
    cbn [Buffer.toString_base64].
    rewrite !sextets_base64_char by (Z.div_mod_to_equations; lia).
    cbn [Buffer.sextets Buffer.bytes_of_sextets Ascii.eqb Bool.eqb].
    f_equal; [|f_equal]; Z.div_mod_to_equations; lia.
  - apply Forall_cons in Hbs as [Ha [Hb [Hc Hbs]%Forall_cons]%Forall_cons].
    cbn [Buffer.toString_base64].
    rewrite !sextets_base64_char by (Z.div_mod_to_equations; lia).
    cbn [Buffer.bytes_of_sextets]. rewrite (IH Hbs).
    f_equal; [|f_equal; [|f_equal]]; Z.div_mod_to_equations; lia.
Qed.

Lemma utf8_bytes_are_bytes cp :
  0 ≤ cp < 0x110000 → Forall is_byte (Buffer.utf8_bytes cp).
Proof.
  intros Hcp. unfold Buffer.utf8_bytes, is_byte.
  destruct (Z.ltb_spec cp 0x80); [|destruct (Z.ltb_spec cp 0x800);
    [|destruct (Z.ltb_spec cp 0x10000)]];
    repeat (constructor; [euclid|]); constructor.
Qed.

(** The decoder reads the bytes of a scalar value back as this value. *)
Lemma decode_utf8_bytes cp rest :
  is_scalar cp →
  Buffer.decode Buffer.Idle (Buffer.utf8_bytes cp ++ rest)
  = cp :: Buffer.decode Buffer.Idle rest.
Proof.
  intros [Hcp Hsur]. unfold Buffer.utf8_bytes.
  destruct (Z.ltb_spec cp 0x80); [|destruct (Z.ltb_spec cp 0x800);
    [|destruct (Z.ltb_spec cp 0x10000)]];
    cbn [app Buffer.decode Buffer.step Buffer.lead]; unfold Buffer.lead.
  - settle. cbn [andb app]. done.
  - settle. cbn [andb app Buffer.decode Buffer.step]. settle.
    cbn [andb app]. f_equal. euclid.
  - settle. cbn [andb app Buffer.decode Buffer.step].
    split_eq; settle; cbn [andb app Buffer.decode Buffer.step]; settle;
      cbn [andb app]; f_equal; euclid.
  - settle. cbn [andb app Buffer.decode Buffer.step].
    split_eq; settle; cbn [andb app Buffer.decode Buffer.step]; settle;
      cbn [andb app Buffer.decode Buffer.step]; settle;
      cbn [andb app]; f_equal; euclid.
Qed.

Lemma decode_flat_map cps :
  Forall is_scalar cps →
  Buffer.decode Buffer.Idle (flat_map Buffer.utf8_bytes cps) = cps.
Proof.
  induction 1 as [|cp cps Hcp _ IH]; [done|].
  cbn [flat_map]. by rewrite decode_utf8_bytes, IH.
Qed.

Lemma from_utf8_bytes cps :
  Forall is_scalar cps → Forall is_byte (flat_map Buffer.utf8_bytes cps).
Proof.
  induction 1 as [|cp cps [Hcp _] _ IH]; [constructor|].
  cbn [flat_map]. apply Forall_app. split; [|done].
  by apply utf8_bytes_are_bytes.
Qed.

Lemma unit_scalar u :
  is_code_unit u = true → is_high_surrogate u = false →
  is_low_surrogate u = false →
  is_scalar u ∧ Buffer.utf16_units u = [u].
Proof.
  unfold_units. split_units; cbn [andb]; intros; try discriminate.
  all: split; [lia|done].
Qed.

Lemma pair_scalar h l :
  is_high_surrogate h = true → is_low_surrogate l = true →
  let cp := 0x10000 + (h - 0xD800) * 0x400 + (l - 0xDC00) in
  is_scalar cp ∧ Buffer.utf16_units cp = [h; l].
Proof.
  unfold_units. split_units; cbn [andb]; intros; try discriminate.
  all: try (exfalso; lia).
  all: split; [lia|]. all: f_equal; [euclid|f_equal; euclid].
Qed.

Lemma code_points_cons u r :
  Buffer.code_points (u :: r) =
  if is_high_surrogate u then
    match r with
    | l :: r' =>
        if is_low_surrogate l
        then (0x10000 + (u - 0xD800) * 0x400 + (l - 0xDC00))
             :: Buffer.code_points r'
        else U_FFFD :: Buffer.code_points r
    | [] => [U_FFFD]
    end
  else if is_low_surrogate u then U_FFFD :: Buffer.code_points r
  else u :: Buffer.code_points r.
Proof. reflexivity. Qed.

(** The code points of a well-formed string are scalar values, and their
    UTF-16 units are the string. *)
Lemma code_points_well_formed us :
  well_formed us = true →
  Forall is_scalar (Buffer.code_points us)
  ∧ flat_map Buffer.utf16_units (Buffer.code_points us) = us.
Proof.
  induction us as [|a|a b us IH IHb] using list_ind_pairs.
  - by split; [constructor|].
  - cbn [well_formed Buffer.code_points].
    destruct (is_high_surrogate a) eqn:Ha; [by rewrite andb_false_r|].
    destruct (is_low_surrogate a) eqn:Hl; [by rewrite andb_false_r|].
    rewrite andb_true_r. intros Hu.
    destruct (unit_scalar a Hu Ha Hl) as [Hsc Hunits].
    cbn [flat_map]. rewrite Hunits.
    split; [constructor; [exact Hsc|constructor]|done].
  - cbn [well_formed]. rewrite code_points_cons.
    destruct (is_high_surrogate a) eqn:Ha; cbv beta iota.
    + destruct (is_low_surrogate b) eqn:Hb; [|by rewrite andb_false_r].
      rewrite andb_true_l. intros [Hu Hus]%andb_true_iff.
      destruct (IH Hus) as [Hsc Hunits].
      destruct (pair_scalar a b Ha Hb) as [Hcp Hpair].
      cbn [flat_map]. rewrite Hunits, Hpair.
      split; [by constructor|done].
    + intros [Hu [Hlow Hus]%andb_true_iff]%andb_true_iff.
      destruct (IHb Hus) as [Hsc Hunits].
      apply negb_true_iff in Hlow. rewrite Hlow.
      destruct (unit_scalar a Hu Ha Hlow) as [Hcp Hunit].
      cbn [flat_map]. rewrite Hunits, Hunit.
      split; [by constructor|done].
Qed.

(** Text that goes through [Buffer.from] and back through
    [toString('utf-8')] is unchanged when it is well formed. *)
Lemma toString_utf8_from_utf8 text :
  well_formed text = true →
  Buffer.toString_utf8 (Buffer.from_utf8 text) = text.
Proof.
  intros [Hsc Hunits]%code_points_well_formed.
  unfold Buffer.toString_utf8, Buffer.from_utf8.
  by rewrite decode_flat_map.
Qed.

Lemma from_utf8_are_bytes text :
  well_formed text = true → Forall is_byte (Buffer.from_utf8 text).
Proof.
  intros [Hsc _]%code_points_well_formed. by apply from_utf8_bytes.
Qed.

(** The decoder skips what is not in the alphabet: the line feeds the remote
    puts in the content do not change the bytes. *)
Lemma sextets_skip c r :
  Buffer.unbase64 c = None → Ascii.eqb c "=" = false →
  Buffer.sextets (String c r) = Buffer.sextets r.
Proof. intros Hc Hpad. simpl. by rewrite Hpad, Hc. Qed.

(** What the create/update tool sends is the encoded content. *)
Lemma createOrUpdateFile_sends_encoded {S} (remote : Remote S) (s : S)
  octokit (i : CreateOrUpdateFile.Input) :
  calls (run remote (CreateOrUpdateFile.execute octokit i) s)
  = [ repos_createOrUpdateFileContents octokit
        (CreateOrUpdateFile.owner i) (CreateOrUpdateFile.repo i)
        (CreateOrUpdateFile.path i) (CreateOrUpdateFile.message i)
        (CreateOrUpdateFile.encode (CreateOrUpdateFile.content i))
        (CreateOrUpdateFile.branch i) (CreateOrUpdateFile.sha i) ].
Proof.
  unfold CreateOrUpdateFile.execute. simpl.
  by destruct (remote _ s) as [[e|d] s'].
Qed.

(** What the file-content tool returns for a file is the decoded content. *)
Lemma getFileContent_file {S} (remote : Remote S) (s : S) octokit
  (i : GetFileContent.Input) node s' :
  let call :=
    repos_getContent octokit (GetFileContent.owner i) (GetFileContent.repo i)
      (GetFileContent.path i) (GetFileContent.ref i) in
  remote call s = (inr (Rest.ContentObject node), s') →
  Rest.node_type node = "file" →
  run remote (GetFileContent.execute octokit i) s
  = (Fulfilled
       (GetFileContent.File (Rest.node_path node) (Rest.node_sha node)
          (Rest.node_size node)
          (GetFileContent.decode (Rest.node_content node))),
     [call], s').
Proof.
  intros call Hcall Htype. unfold GetFileContent.execute. simpl.
  fold call. rewrite Hcall, Htype. done.
Qed.

(** A node that is neither a listing nor a file comes back as its type and
    path. *)
Lemma getFileContent_node {S} (remote : Remote S) (s : S) octokit
  (i : GetFileContent.Input) node s' :
  let call :=
    repos_getContent octokit (GetFileContent.owner i) (GetFileContent.repo i)
      (GetFileContent.path i) (GetFileContent.ref i) in
  remote call s = (inr (Rest.ContentObject node), s') →
  Rest.node_type node ≠ "file" →
  run remote (GetFileContent.execute octokit i) s
  = (Fulfilled (GetFileContent.Node (Rest.node_type node) (Rest.node_path node)),
     [call], s').
Proof.
  intros call Hcall Htype. unfold GetFileContent.execute. simpl.
  fold call. rewrite Hcall.
  by destruct (String.eqb_spec (Rest.node_type node) "file").
Qed.

(** Reading back a file whose content is what the create/update tool sent
    gives the text that was written, when that text is well formed. *)
Lemma getFileContent_reads_back {S} (remote : Remote S) (s : S) octokit
  (i : GetFileContent.Input) node s' text :
  remote
    (repos_getContent octokit (GetFileContent.owner i) (GetFileContent.repo i)
       (GetFileContent.path i) (GetFileContent.ref i)) s
  = (inr (Rest.ContentObject node), s') →
  Rest.node_type node = "file" →
  Rest.node_content node = CreateOrUpdateFile.encode text →
  well_formed text = true →
  (run remote (GetFileContent.execute octokit i) s).1.1
  = Fulfilled
      (GetFileContent.File (Rest.node_path node) (Rest.node_sha node)
         (Rest.node_size node) text).
Proof.
  intros Hcall Htype Hcontent Hwf.
  rewrite (getFileContent_file _ _ _ _ _ _ Hcall Htype). simpl.
  rewrite Hcontent. unfold GetFileContent.decode, CreateOrUpdateFile.encode.
  rewrite from_base64_toString_base64 by by apply from_utf8_are_bytes.
  by rewrite toString_utf8_from_utf8.
Qed.

(** C7, as amended. Well-formed text (no unpaired surrogate) that is encoded
    as the create/update tool encodes it and decoded as the file-content
    tool decodes it is unchanged; and on a directory path the file-content
    tool returns, after its one call, the entries of the remote response in
    their order. *)
Theorem file_content_round_trip :
  (∀ content, well_formed content = true →
     GetFileContent.decode (CreateOrUpdateFile.encode content) = content)
  ∧ (∀ S (remote : Remote S) s octokit (i : GetFileContent.Input) data s',
       let call :=
         repos_getContent octokit (GetFileContent.owner i)
           (GetFileContent.repo i) (GetFileContent.path i)
           (GetFileContent.ref i) in
       remote call s = (inr (Rest.ContentArray data), s') →
       ∃ entries,
         run remote (GetFileContent.execute octokit i) s
         = (Fulfilled (GetFileContent.Directory entries), [call], s')
         ∧ entries = map GetFileContent.entry_of data
         ∧ GetFileContent.entry_name <$> entries = Rest.node_name <$> data
         ∧ GetFileContent.entry_type <$> entries = Rest.node_type <$> data
         ∧ GetFileContent.entry_path <$> entries = Rest.node_path <$> data).
Proof.
  split.
  - intros content Hwf.
    unfold GetFileContent.decode, CreateOrUpdateFile.encode.
    rewrite from_base64_toString_base64 by by apply from_utf8_are_bytes.
    by apply toString_utf8_from_utf8.
  - intros S remote s octokit i data s' call Hcall.
    exists (map GetFileContent.entry_of data).
    split; [|split; [done|]].
    + unfold GetFileContent.execute. simpl. fold call. by rewrite Hcall.
    + by rewrite <- !list_fmap_compose.
Qed.

(** Text with accented letters and a surrogate pair, and the listing of the
    sample remote. *)
Lemma file_content_round_trip_witness :
  GetFileContent.decode
    (CreateOrUpdateFile.encode [104; 105; 0xE9; 0x20AC; 0xD83D; 0xDE00])
  = [104; 105; 0xE9; 0x20AC; 0xD83D; 0xDE00]
  ∧ ∃ entries,
      run sample_remote
        (GetFileContent.execute sample_octokit listing_input) 0%nat
      = (Fulfilled (GetFileContent.Directory entries),
         [repos_getContent sample_octokit "HugoRCD" "github-tools" "" None],
         1%nat)
      ∧ GetFileContent.entry_name <$> entries = ["src"; "README.md"].
Proof.
  split.
  - apply (proj1 file_content_round_trip). reflexivity.
  - destruct (proj2 file_content_round_trip nat sample_remote 0%nat
                sample_octokit listing_input sample_listing 1%nat eq_refl)
      as (entries & Hrun & _ & Hnames & _).
    exists entries. by split.
Defined.

(** C7, as stated, fails: an unpaired surrogate comes back as U+FFFD. *)
Lemma unpaired_surrogate_is_replaced :
  GetFileContent.decode (CreateOrUpdateFile.encode [0xD800]) = [0xFFFD]
  ∧ GetFileContent.decode (CreateOrUpdateFile.encode [0xD800]) ≠ [0xD800].
Proof. split; [by vm_compute|]. vm_compute. discriminate. Qed.

Example encode_examples :
  CreateOrUpdateFile.encode [104; 105] = "aGk="
  ∧ CreateOrUpdateFile.encode [104; 105; 0xE9; 0x20AC; 0xD83D; 0xDE00]
    = "aGnDqeKCrPCfmIA="
  ∧ CreateOrUpdateFile.encode [0xD800] = "77+9"
  ∧ GetFileContent.decode ("aGVs" +:+ String "010" "bG8=")
    = [104; 101; 108; 108; 111]
  ∧ GetFileContent.decode "77u/aGk=" = [0xFEFF; 104; 105]
  ∧ GetFileContent.decode "4oI=" = [0xFFFD].
Proof. vm_compute. done. Qed.

(** ** Further properties of the composer *)

Lemma filter_all_keys (allowed : gset string) (o : Registry) :
  (∀ k, k ∈ Object_keys o → k ∈ allowed) →
  filter (λ e, e.1 ∈ allowed) o = o.
Proof.
  unfold Object_keys. induction o as [|[k t] o IH]; intros Hall; [done|].
  rewrite filter_cons_True by (apply Hall; left).
  rewrite IH; [done|]. intros k' Hk'. apply Hall. by right.
Qed.

Lemma maintainer_has_every_tool :
  ∀ k, k ∈ tool_names → k ∈ preset_set maintainer.
Proof.
  intros k Hk. unfold preset_set. apply elem_of_list_to_set.
  simpl in *. set_solver.
Qed.

Lemma repo_explorer_has_no_write_tool :
  ∀ k, k ∈ preset_set repo_explorer → k ∉ write_tool_names.
Proof.
  intros k Hk. unfold preset_set in Hk. apply elem_of_list_to_set in Hk.
  unfold write_tool_names. simpl in *. set_solver.
Qed.

Section MoreComposerProperties.
Context {imports : Imports}.

Lemma allTools_ext octokit
  (approval approval' : GithubWriteToolName.t → option ToolOptions.t) :
  (∀ w, approval w = approval' w) →
  allTools octokit approval = allTools octokit approval'.
Proof. intros Heq. unfold allTools. by rewrite !Heq. Qed.

Lemma createGithubTools_approval_ext tok c c' sel :
  (∀ w, resolveApproval w c = resolveApproval w c') →
  createGithubTools
    {| token := tok; requireApproval := Some c; preset := sel |}
  = createGithubTools
    {| token := tok; requireApproval := Some c'; preset := sel |}.
Proof.
  intros Heq. unfold createGithubTools. cbn [token requireApproval preset].
  cbn [default option_rect from_option].
  by rewrite (allTools_ext _ _
    (λ name, Some {| ToolOptions.needsApproval :=
                       Some (resolveApproval name c') |}))
    by (intros w; by rewrite Heq).
Qed.

(** The keys of a registry are distinct and keep the order of the object
    literal, whatever the selector and the order of its presets. *)
Theorem registry_keys_ordered tok cfg sel :
  let registry := createGithubTools
    {| token := tok; requireApproval := cfg; preset := sel |} in
  (NoDup (Object_keys registry))
  ∧ (Object_keys registry `sublist_of` tool_names).
Proof.
  intros registry. subst registry. destruct sel as [sel|].
  - rewrite (createGithubTools_selected _ _ _ _
               (resolvePresetTools_selected sel)).
    split.
    + apply filter_keys_NoDup. rewrite keys_allTools. apply NoDup_tool_names.
    + unfold Object_keys. rewrite <- (keys_allTools (createOctokit tok)
        (λ name, Some {| ToolOptions.needsApproval :=
           Some (resolveApproval name (default (ApprovalBool true) cfg)) |})).
      unfold Object_keys. apply fmap_sublist, sublist_filter.
  - rewrite createGithubTools_omitted, keys_allTools.
    split; [apply NoDup_tool_names|done].
Qed.

(** A selector that names ['maintainer'] gives the registry of an omitted
    selector. *)
Theorem maintainer_is_every_tool tok cfg :
  createGithubTools
    {| token := tok; requireApproval := cfg;
       preset := Some (OnePreset maintainer) |}
  = createGithubTools
    {| token := tok; requireApproval := cfg; preset := None |}
  ∧ ∀ ps, maintainer ∈ ps →
      createGithubTools
        {| token := tok; requireApproval := cfg;
           preset := Some (PresetArray ps) |}
      = createGithubTools
        {| token := tok; requireApproval := cfg; preset := None |}.
Proof.
  split; [|intros ps Hps];
    rewrite (createGithubTools_selected _ _ _ _
               (resolvePresetTools_selected _));
    rewrite createGithubTools_omitted; apply filter_all_keys;
    rewrite keys_allTools; intros k Hk%maintainer_has_every_tool; [done|].
  simpl. apply elem_of_union_list. exists (preset_set maintainer).
  split; [|done]. by apply list_elem_of_fmap_2.
Qed.

(** The registry of ['repo-explorer'] has no mutating tool and no approval
    flag, whatever the approval configuration. *)
Theorem repo_explorer_is_read_only tok cfg name t :
  (name, t) ∈ createGithubTools
    {| token := tok; requireApproval := cfg;
       preset := Some (OnePreset repo_explorer) |} →
  (name ∉ write_tool_names) ∧ needsApproval t = None.
Proof.
  rewrite (createGithubTools_selected _ _ _ _
             (resolvePresetTools_selected _)).
  intros [Hname Hin]%list_elem_of_filter. simpl in Hname.
  apply repo_explorer_has_no_write_tool in Hname.
  split; [done|]. by apply (allTools_read_only _ _ _ _ Hin).
Qed.

(** Under a selector, the tool found under a selected name is the tool of
    the full registry, flag included; under any other name there is none. *)
Theorem preset_keeps_tools tok cfg sel k :
  get_property
    (createGithubTools
       {| token := tok; requireApproval := cfg; preset := Some sel |}) k
  = if bool_decide (k ∈ selected sel)
    then get_property
           (createGithubTools
              {| token := tok; requireApproval := cfg; preset := None |}) k
    else None.
Proof.
  rewrite (createGithubTools_selected _ _ _ _
             (resolvePresetTools_selected sel)).
  by rewrite get_property_filter, createGithubTools_omitted.
Qed.

(** Only the set of presets of an array matters: repeating or reordering
    them gives the same registry, and an array of one preset is that
    preset. *)
Theorem presets_as_set tok cfg :
  (∀ ps ps', (∀ p, p ∈ ps ↔ p ∈ ps') →
     createGithubTools
       {| token := tok; requireApproval := cfg;
          preset := Some (PresetArray ps) |}
     = createGithubTools
       {| token := tok; requireApproval := cfg;
          preset := Some (PresetArray ps') |})
  ∧ (∀ p,
     createGithubTools
       {| token := tok; requireApproval := cfg;
          preset := Some (PresetArray [p]) |}
     = createGithubTools
       {| token := tok; requireApproval := cfg;
          preset := Some (OnePreset p) |}).
Proof.
  split.
  - intros ps ps' Hsame.
    rewrite !(createGithubTools_selected _ _ _ _
                (resolvePresetTools_selected _)).
    replace (selected (PresetArray ps)) with (selected (PresetArray ps'));
      [done|].
    simpl. apply set_eq. intros k. rewrite !elem_of_union_list.
    split; intros (X & HX & Hk); exists X; (split; [|done]);
      apply list_elem_of_fmap in HX as (p & -> & Hp);
      apply list_elem_of_fmap_2; by apply Hsame.
  - intros p.
    rewrite !(createGithubTools_selected _ _ _ _
                (resolvePresetTools_selected _)).
    replace (selected (PresetArray [p])) with (selected (OnePreset p));
      [done|].
    simpl. set_solver.
Qed.

(** A preset gives exactly the tools its table lists: every listed name is
    a tool, and no name is listed twice. *)
Theorem preset_gives_its_tools tok cfg p :
  let registry := createGithubTools
    {| token := tok; requireApproval := cfg;
       preset := Some (OnePreset p) |} in
  key_set registry = preset_set p
  ∧ length registry = length (PRESET_TOOLS p).
Proof.
  intros registry. subst registry. split.
  - rewrite key_set_selected. simpl. pose proof (preset_set_known p).
    set_solver.
  - rewrite (createGithubTools_selected _ _ _ _
               (resolvePresetTools_selected _)).
    destruct p; vm_compute; reflexivity.
Qed.

(** Adding presets to an array never removes a tool. *)
Theorem presets_monotone tok cfg ps ps' :
  (∀ p, p ∈ ps → p ∈ ps') →
  key_set (createGithubTools
    {| token := tok; requireApproval := cfg; preset := Some (PresetArray ps) |})
  ⊆ key_set (createGithubTools
    {| token := tok; requireApproval := cfg;
       preset := Some (PresetArray ps') |}).
Proof.
  intros Hsub. rewrite !key_set_selected. simpl.
  intros k [Hk Hsel]%elem_of_intersection. apply elem_of_intersection.
  split; [done|]. apply elem_of_union_list in Hsel as (X & HX & HkX).
  apply elem_of_union_list. exists X. split; [|done].
  apply list_elem_of_fmap in HX as (p & -> & Hp).
  by apply list_elem_of_fmap_2, Hsub.
Qed.

(** An omitted approval configuration, [true] and the empty object give the
    same registry: every mutating tool needs approval. *)
Theorem approval_defaults tok sel :
  createGithubTools {| token := tok; requireApproval := None; preset := sel |}
  = createGithubTools
      {| token := tok; requireApproval := Some (ApprovalBool true);
         preset := sel |}
  ∧ createGithubTools
      {| token := tok; requireApproval := Some (ApprovalObject ∅);
         preset := sel |}
    = createGithubTools
      {| token := tok; requireApproval := Some (ApprovalBool true);
         preset := sel |}.
Proof.
  split; [done|]. apply createGithubTools_approval_ext.
  intros w. unfold resolveApproval. by rewrite lookup_empty.
Qed.

(** Only the entries of the 7 mutating tools of an approval object count:
    two objects that agree on them give the same registry. *)
Theorem approval_object_other_keys tok sel (m m' : gmap string bool) :
  (∀ w, m !! GithubWriteToolName.to_string w
        = m' !! GithubWriteToolName.to_string w) →
  createGithubTools
    {| token := tok; requireApproval := Some (ApprovalObject m);
       preset := sel |}
  = createGithubTools
    {| token := tok; requireApproval := Some (ApprovalObject m');
       preset := sel |}.
Proof.
  intros Hagree. apply createGithubTools_approval_ext.
  intros w. unfold resolveApproval. by rewrite Hagree.
Qed.

(** The composer without presets: the 18 tools, each mutating tool with
    exactly its resolved flag, no other tool with a flag. *)
Theorem legacy_registry tok cfg :
  let registry := Legacy.createGithubTools
    {| Legacy.token := tok; Legacy.requireApproval := cfg |} in
  Object_keys registry = tool_names
  ∧ (∀ w, approval_flags registry (GithubWriteToolName.to_string w)
          = [resolveApproval w (default (ApprovalBool true) cfg)])
  ∧ (∀ name t, (name, t) ∈ registry → name ∉ write_tool_names →
               needsApproval t = None).
Proof.
  intros registry.
  assert (registry = allTools (createOctokit tok)
    (λ name, Some {| ToolOptions.needsApproval :=
       Some (resolveApproval name (default (ApprovalBool true) cfg)) |}))
    as -> by reflexivity.
  split; [apply keys_allTools|]. split.
  - intros w. apply approval_flags_allTools.
  - intros name t. apply allTools_read_only.
Qed.

End MoreComposerProperties.

Lemma maintainer_is_every_tool_witness :
  createGithubTools (imports := sample_imports)
    {| token := "ghp_token"; requireApproval := None;
       preset := Some (PresetArray [code_review; maintainer]) |}
  = createGithubTools (imports := sample_imports)
    {| token := "ghp_token"; requireApproval := None; preset := None |}.
Proof.
  apply (proj2 (maintainer_is_every_tool (imports := sample_imports)
                  "ghp_token" None)).
  repeat constructor.
Defined.

Lemma repo_explorer_is_read_only_witness :
  ("searchCode" ∉ write_tool_names)
  ∧ needsApproval (searchCode (imports := sample_imports) sample_octokit)
    = None.
Proof.
  apply (repo_explorer_is_read_only (imports := sample_imports)
           "ghp_token" (Some (ApprovalBool false))).
  rewrite (createGithubTools_selected _ _ _ _
             (resolvePresetTools_selected _)).
  apply list_elem_of_filter. split.
  - apply (bool_decide_unpack _). vm_compute. exact I.
  - unfold allTools. do 7 apply list_elem_of_further.
    apply list_elem_of_here.
Defined.

Lemma presets_as_set_witness :
  createGithubTools (imports := sample_imports)
    {| token := "ghp_token"; requireApproval := None;
       preset := Some (PresetArray [code_review; issue_triage; code_review]) |}
  = createGithubTools (imports := sample_imports)
    {| token := "ghp_token"; requireApproval := None;
       preset := Some (PresetArray [issue_triage; code_review]) |}.
Proof.
  apply (proj1 (presets_as_set (imports := sample_imports) "ghp_token" None)).
  intros p. rewrite !elem_of_cons, !elem_of_nil. tauto.
Defined.

Lemma presets_monotone_witness :
  key_set (createGithubTools (imports := sample_imports)
    {| token := "ghp_token"; requireApproval := None;
       preset := Some (PresetArray [issue_triage]) |})
  ⊆ key_set (createGithubTools (imports := sample_imports)
    {| token := "ghp_token"; requireApproval := None;
       preset := Some (PresetArray [code_review; issue_triage]) |}).
Proof.
  apply (presets_monotone (imports := sample_imports) "ghp_token" None).
  intros p. rewrite !elem_of_cons, !elem_of_nil. tauto.
Defined.

(** An entry for a read-only tool changes nothing. *)
Lemma approval_object_other_keys_witness :
  createGithubTools (imports := sample_imports)
    {| token := "ghp_token";
       requireApproval :=
         Some (ApprovalObject (<["getRepository" := false]> scenario_approval));
       preset := None |}
  = createGithubTools (imports := sample_imports)
    {| token := "ghp_token";
       requireApproval := Some (ApprovalObject scenario_approval);
       preset := None |}.
Proof.
  apply (approval_object_other_keys (imports := sample_imports)).
  intros w. destruct w; vm_compute; reflexivity.
Defined.

Lemma legacy_registry_witness :
  needsApproval (listBranches sample_octokit) = None.
Proof.
  apply (proj2 (proj2 (legacy_registry (imports := sample_imports)
                         "ghp_token" None)) "listBranches").
  - cbv [Legacy.createGithubTools]. cbv zeta.
    apply list_elem_of_further, list_elem_of_here.
  - apply (bool_decide_unpack _). vm_compute. exact I.
Defined.

(** ** Further properties of the repository tools *)

(** A body that awaits one call and reshapes its data. *)
Lemma run_await_then {S A} (remote : Remote S) (s : S) c
  (g : Response c → A) :
  run remote (r ← await c; mret (g r)) s
  = match remote c s with
    | (inl e, s') => (Rejected e, [c], s')
    | (inr r, s') => (Fulfilled (g r), [c], s')
    end.
Proof. simpl. by destruct (remote c s) as [[e|r] s']. Qed.

Lemma calls_await_then {S A} (remote : Remote S) (s : S) c
  (g : Response c → A) :
  calls (run remote (r ← await c; mret (g r)) s) = [c].
Proof. rewrite run_await_then. by destruct (remote c s) as [[e|r] s']. Qed.


Lemma calls_createRepository {S} (remote : Remote S) (s : S) octokit i :
  calls (run remote (CreateRepository.execute octokit i) s)
  = [ let params := {|
        Rest.new_name := CreateRepository.name i;
        Rest.new_description := CreateRepository.description i;
        Rest.new_private := CreateRepository.isPrivate i;
        Rest.new_auto_init := CreateRepository.autoInit i;
        Rest.new_gitignore_template := CreateRepository.gitignoreTemplate i;
        Rest.new_license_template := CreateRepository.licenseTemplate i
      |} in
      if truthy (CreateRepository.org i)
      then repos_createInOrg octokit (default "" (CreateRepository.org i))
             params
      else repos_createForAuthenticatedUser octokit params ].
Proof.
  unfold CreateRepository.execute.
  destruct (truthy (CreateRepository.org i)); simpl;
    by destruct (remote _ s) as [[e|r] s'].
Qed.

(** The calls of the branch-creation tool, whatever the input and the
    remote: the lookups, then at most one creation. *)
Lemma calls_createBranch {S} (remote : Remote S) (s : S) octokit i :
  ∃ lookups creation,
    calls (run remote (CreateBranch.execute octokit i) s)
    = lookups ++ creation
    ∧ Forall (λ c, is_read_call c = true ∧ call_octokit c = octokit) lookups
    ∧ (length lookups ≤ 2)%nat
    ∧ (creation = []
       ∨ ∃ sha, creation =
           [ git_createRef octokit (CreateBranch.owner i)
               (CreateBranch.repo i)
               ("refs/heads/" +:+ CreateBranch.branch i) sha ]).
Proof.
  unfold CreateBranch.execute.
  destruct (CreateBranch.needs_lookup (CreateBranch.from i)).
  - destruct (truthy (CreateBranch.from i)); simpl.
    + destruct (remote _ s) as [[e|ref] s1] eqn:Href.
      * eexists [_], []. simpl. split; [done|]. split; [|split; [lia|by left]].
        by repeat constructor.
      * destruct (remote (git_createRef _ _ _ _ _) s1) as [[e|d] s2];
          (eexists [_], [_]; simpl; split; [done|];
           split; [by repeat constructor|split; [lia|right; by eexists]]).
    + destruct (remote _ s) as [[e|r] s1] eqn:Hget.
      * eexists [_], []. simpl. split; [done|]. split; [|split; [lia|by left]].
        by repeat constructor.
      * simpl. destruct (remote _ s1) as [[e|ref] s2] eqn:Href.
        -- eexists [_; _], []. simpl. split; [done|].
           split; [|split; [lia|by left]]. by repeat constructor.
        -- simpl.
           destruct (remote (git_createRef _ _ _ _ _) s2) as [[e|d] s3];
             (eexists [_; _], [_]; simpl; split; [done|];
              split; [by repeat constructor|split; [lia|right; by eexists]]).
  - simpl. destruct (remote _ s) as [[e|d] s1];
      (eexists [], [_]; simpl; split; [done|];
       split; [constructor|split; [lia|right; by eexists]]).
Qed.


(** The fork, repository-creation and file tools issue exactly one call, on
    their handle, also when it is rejected: nothing is retried. *)
Theorem mutating_tools_call_once {S} (remote : Remote S) (s : S) octokit :
  let once := λ cs : list Call,
    length cs = 1%nat
    ∧ Forall (λ c, is_read_call c = false ∧ call_octokit c = octokit) cs in
  (∀ i, once (calls (run remote (ForkRepository.execute octokit i) s)))
  ∧ (∀ i, once (calls (run remote (CreateRepository.execute octokit i) s)))
  ∧ (∀ i, once (calls (run remote (CreateOrUpdateFile.execute octokit i) s))).
Proof.
  intros once. subst once. cbv beta.
  split; [|split]; intros i.
  - unfold ForkRepository.execute. simpl.
    destruct (remote _ s) as [[e|r] s']; by repeat constructor.
  - rewrite calls_createRepository. cbv zeta.
    destruct (truthy (CreateRepository.org i)); by repeat constructor.
  - rewrite createOrUpdateFile_sends_encoded. by repeat constructor.
Qed.

Lemma hex_run_spec n s :
  hex_run n s = true ↔
  String.length s = n
  ∧ Forall (λ c, is_hex_digit c = true) (list_ascii_of_string s).
Proof.
  revert s. induction n as [|n IH]; intros [|c s]; simpl.
  - split; [by split; [|constructor]|done].
  - split; [done|]. by intros [? _].
  - split; [done|]. by intros [? _].
  - rewrite andb_true_iff, IH, Forall_cons. split.
    + intros [Hc [Hlen Hs]]. by rewrite Hlen.
    + intros [Hlen [Hc Hs]]. by injection Hlen as ->.
Qed.

(** What the SHA pattern accepts: exactly 40 characters, each a decimal
    digit or a letter a-f in either case. *)
Theorem matches_sha_spec s :
  matches_sha s = true ↔
  String.length s = 40%nat
  ∧ Forall (λ c, c ∈ list_ascii_of_string "0123456789abcdefABCDEF")
      (list_ascii_of_string s).
Proof.
  unfold matches_sha. rewrite hex_run_spec.
  apply and_iff_compat_l, Forall_iff. intros c.
  destruct c as [[] [] [] [] [] [] [] []]; vm_compute;
    (split; [intros; try discriminate; repeat constructor
            | intros Hc; try reflexivity;
              repeat (apply elem_of_cons in Hc as [Hc|Hc];
                      [discriminate Hc|]);
              by apply elem_of_nil in Hc]).
Qed.

Lemma createBranch_from_sha_witness :
  calls (run sample_remote
           (CreateBranch.execute sample_octokit branch_from_sha) 0%nat)
  = [ git_createRef sample_octokit "HugoRCD" "github-tools"
        "refs/heads/feature" sample_sha ].
Proof.
  exact (createBranch_from_sha sample_remote 0%nat sample_octokit
           branch_from_sha sample_sha eq_refl eq_refl).
Defined.

(** A repository is created in the organisation when [org] is a non-empty
    name, and for the authenticated user when [org] is omitted or empty;
    [isPrivate] and [autoInit] become [private] and [auto_init]. *)
Theorem createRepository_target {S} (remote : Remote S) (s : S) octokit
  (i : CreateRepository.Input) :
  let params := {|
    Rest.new_name := CreateRepository.name i;
    Rest.new_description := CreateRepository.description i;
    Rest.new_private := CreateRepository.isPrivate i;
    Rest.new_auto_init := CreateRepository.autoInit i;
    Rest.new_gitignore_template := CreateRepository.gitignoreTemplate i;
    Rest.new_license_template := CreateRepository.licenseTemplate i
  |} in
  (∀ org, CreateRepository.org i = Some org → org ≠ "" →
     calls (run remote (CreateRepository.execute octokit i) s)
     = [ repos_createInOrg octokit org params ])
  ∧ (CreateRepository.org i = None ∨ CreateRepository.org i = Some "" →
     calls (run remote (CreateRepository.execute octokit i) s)
     = [ repos_createForAuthenticatedUser octokit params ]).
Proof.
  intros params. rewrite calls_createRepository. fold params. split.
  - intros org Horg Hne. rewrite Horg. simpl.
    by destruct (String.eqb_spec org "").
  - by intros [->| ->].
Qed.

Lemma createRepository_target_witness :
  calls (run sample_remote
           (CreateRepository.execute sample_octokit
              (new_repository_input (Some "nuxt"))) 0%nat)
  = [ repos_createInOrg sample_octokit "nuxt"
        {| Rest.new_name := "playground"; Rest.new_description := None;
           Rest.new_private := true; Rest.new_auto_init := false;
           Rest.new_gitignore_template := None;
           Rest.new_license_template := None |} ]
  ∧ calls (run sample_remote
             (CreateRepository.execute sample_octokit
                (new_repository_input (Some ""))) 0%nat)
    = [ repos_createForAuthenticatedUser sample_octokit
          {| Rest.new_name := "playground"; Rest.new_description := None;
             Rest.new_private := true; Rest.new_auto_init := false;
             Rest.new_gitignore_template := None;
             Rest.new_license_template := None |} ].
Proof.
  split.
  - apply (proj1 (createRepository_target sample_remote 0%nat sample_octokit
                    (new_repository_input (Some "nuxt"))) "nuxt" eq_refl).
    discriminate.
  - apply (proj2 (createRepository_target sample_remote 0%nat sample_octokit
                    (new_repository_input (Some "")))).
    by right.
Defined.

(** The branch tool returns one item per branch of the response, in the
    order of the response, with the name, the head SHA and the protection of
    each. *)
Theorem listBranches_preserves_order {S} (remote : Remote S) (s : S) octokit
  (i : ListBranches.Input) data s' :
  let call :=
    repos_listBranches octokit (ListBranches.owner i) (ListBranches.repo i)
      (ListBranches.perPage i) in
  remote call s = (inr data, s') →
  ∃ items,
    run remote (ListBranches.execute octokit i) s
    = (Fulfilled items, [call], s')
    ∧ length items = length data
    ∧ ListBranches.name <$> items = Rest.branch_name <$> data
    ∧ ListBranches.sha <$> items = Rest.branch_commit_sha <$> data
    ∧ ListBranches.protected <$> items = Rest.branch_protected <$> data.
Proof.
  intros call Hcall. eexists. split.
  - unfold ListBranches.execute. simpl. fold call. by rewrite Hcall.
  - rewrite length_map. by rewrite <- !list_fmap_compose.
Qed.

Lemma listBranches_preserves_order_witness :
  ∃ items,
    run branches_remote (ListBranches.execute sample_octokit branches_input)
      0%nat
    = (Fulfilled items,
       [repos_listBranches sample_octokit "HugoRCD" "github-tools" 30], 1%nat)
    ∧ ListBranches.name <$> items = ["main"; "develop"].
Proof.
  destruct (listBranches_preserves_order branches_remote 0%nat sample_octokit
              branches_input sample_branches 1%nat eq_refl)
    as (items & Hrun & _ & Hnames & _).
  exists items. by split.
Defined.

Lemma getFileContent_reads_back_witness :
  (run file_remote (GetFileContent.execute sample_octokit readme_input)
     0%nat).1.1
  = Fulfilled (GetFileContent.File "README.md" sample_sha 2 [104; 105]).
Proof.
  exact (getFileContent_reads_back file_remote 0%nat sample_octokit
           readme_input sample_file 1%nat [104; 105]
           eq_refl eq_refl eq_refl eq_refl).
Defined.

(** ** Further properties of the encodings *)

Section ListInductionQuads.
Context {A : Type} (P : list A → Prop).

End ListInductionQuads.

Lemma toWellFormed_cons u r :
  toWellFormed (u :: r) =
  if is_high_surrogate u then
    match r with
    | l :: r' =>
        if is_low_surrogate l then u :: l :: toWellFormed r'
        else U_FFFD :: toWellFormed r
    | [] => [U_FFFD]
    end
  else if is_low_surrogate u then U_FFFD :: toWellFormed r
  else u :: toWellFormed r.
Proof. reflexivity. Qed.

Lemma replacement_scalar :
  is_scalar U_FFFD ∧ Buffer.utf16_units U_FFFD = [U_FFFD].
Proof. split; [|done]. unfold is_scalar, U_FFFD. lia. Qed.

(** The code points of any string are scalar values, and their UTF-16 units
    are the string with its unpaired surrogates replaced. *)
Lemma code_points_scalar text :
  Forall (λ u, is_code_unit u = true) text →
  Forall is_scalar (Buffer.code_points text)
  ∧ flat_map Buffer.utf16_units (Buffer.code_points text) = toWellFormed text.
Proof.
  destruct replacement_scalar as [Hrs Hru].
  induction text as [|a|a b us IH IHb] using list_ind_pairs; intros Hunits.
  - by split; [constructor|].
  - apply Forall_cons in Hunits as [Ha _].
    rewrite code_points_cons, toWellFormed_cons.
    destruct (is_high_surrogate a) eqn:Hh;
      [|destruct (is_low_surrogate a) eqn:Hl]; cbn [flat_map].
    + rewrite Hru. split; [constructor; [done|constructor]|done].
    + rewrite Hru. split; [constructor; [done|constructor]|done].
    + destruct (unit_scalar a Ha Hh Hl) as [Hsc Hu]. rewrite Hu.
      split; [constructor; [done|constructor]|done].
  - apply Forall_cons in Hunits as [Ha Hrest].
    pose proof Hrest as [Hb Hus]%Forall_cons.
    destruct (IH Hus) as [Hsc Htext]. destruct (IHb Hrest) as [Hscb Htextb].
    rewrite code_points_cons, toWellFormed_cons.
    destruct (is_high_surrogate a) eqn:Hh.
    + destruct (is_low_surrogate b) eqn:Hlb; cbn [flat_map].
      * destruct (pair_scalar a b Hh Hlb) as [Hcp Hpair].
        rewrite Hpair, Htext. split; [by constructor|done].
      * rewrite Hru, Htextb. split; [by constructor|done].
    + destruct (is_low_surrogate a) eqn:Hl; cbn [flat_map].
      * rewrite Hru, Htextb. split; [by constructor|done].
      * destruct (unit_scalar a Ha Hh Hl) as [Hcp Hu].
        rewrite Hu, Htextb. split; [by constructor|done].
Qed.












Lemma decode_encode_well_formed text :
  well_formed text = true →
  GetFileContent.decode (CreateOrUpdateFile.encode text) = text.
Proof.
  intros Hwf. unfold GetFileContent.decode, CreateOrUpdateFile.encode.
  rewrite from_base64_toString_base64 by by apply from_utf8_are_bytes.
  by apply toString_utf8_from_utf8.
Qed.


Lemma base64_char_is_base64 n :
  is_base64_char (Buffer.base64_char n) = true.
Proof.
  unfold Buffer.base64_char. generalize (Z.to_nat n). intros m.
  do 64 (destruct m as [|m]; [by vm_compute|]). reflexivity.
Qed.

Lemma toString_base64_shape bs :
  Forall (λ c, is_base64_char c = true)
    (list_ascii_of_string (Buffer.toString_base64 bs))
  ∧ (String.length (Buffer.toString_base64 bs) `mod` 4 = 0)%nat.
Proof.
  induction bs as [|a|a b|a b c bs [IHc IHl]] using list_ind_triples;
    cbn [Buffer.toString_base64 list_ascii_of_string String.length].
  - by split; [constructor|].
  - split; [|done].
    repeat (constructor; [first [apply base64_char_is_base64|done]|]).
    constructor.
  - split; [|done].
    repeat (constructor; [first [apply base64_char_is_base64|done]|]).
    constructor.
  - split.
    + repeat (constructor; [apply base64_char_is_base64|]). exact IHc.
    + set (n := String.length (Buffer.toString_base64 bs)) in *.
      replace (S (S (S (S n)))) with (n + 1 * 4)%nat by lia.
      by rewrite Nat.Div0.mod_add.
Qed.

Lemma sextets_app_skip s1 c s2 :
  Buffer.unbase64 c = None → Ascii.eqb c "=" = false →
  Buffer.sextets (s1 +:+ String c s2) = Buffer.sextets (s1 +:+ s2).
Proof.
  intros Hc Hpad. induction s1 as [|c1 s1 IH]; simpl.
  - by rewrite Hpad, Hc.
  - destruct (Ascii.eqb c1 "="); [done|].
    destruct (Buffer.unbase64 c1); by rewrite IH.
Qed.

(** Text that is written and read back comes back with every unpaired
    surrogate replaced by U+FFFD and nothing else changed. *)
Theorem round_trip_replaces_unpaired_surrogates text :
  Forall (λ u, is_code_unit u = true) text →
  GetFileContent.decode (CreateOrUpdateFile.encode text) = toWellFormed text.
Proof.
  intros [Hsc Hunits]%code_points_scalar.
  unfold GetFileContent.decode, CreateOrUpdateFile.encode.
  rewrite from_base64_toString_base64 by by apply from_utf8_bytes.
  unfold Buffer.toString_utf8, Buffer.from_utf8.
  by rewrite decode_flat_map.
Qed.

Lemma round_trip_replaces_unpaired_surrogates_witness :
  GetFileContent.decode (CreateOrUpdateFile.encode [104; 0xD800; 105])
  = [104; 0xFFFD; 105].
Proof.
  apply (round_trip_replaces_unpaired_surrogates [104; 0xD800; 105]).
  repeat constructor.
Defined.

(** Two well-formed texts with the same encoded content are the same
    text. *)
Theorem encode_injective text text' :
  well_formed text = true → well_formed text' = true →
  CreateOrUpdateFile.encode text = CreateOrUpdateFile.encode text' →
  text = text'.
Proof.
  intros Hwf Hwf' Heq.
  rewrite <- (decode_encode_well_formed text Hwf).
  rewrite <- (decode_encode_well_formed text' Hwf').
  by rewrite Heq.
Qed.

Lemma encode_injective_witness : [104; 105] = [104; 105] :> utf16.
Proof.
  exact (encode_injective [104; 105] [104; 105] eq_refl eq_refl eq_refl).
Defined.

(** The encoded content is base64 text: characters of the alphabet and
    padding, four for every three bytes. *)
Theorem encoded_content_is_base64 text :
  Forall (λ c, is_base64_char c = true)
    (list_ascii_of_string (CreateOrUpdateFile.encode text))
  ∧ (String.length (CreateOrUpdateFile.encode text) `mod` 4 = 0)%nat.
Proof. apply toString_base64_shape. Qed.

(** Line feeds, carriage returns, spaces and tabs anywhere in the content of
    a file do not change what is decoded. *)
Theorem decode_skips_white_space :
  Forall (λ c, ∀ s1 s2,
            GetFileContent.decode (s1 +:+ String c s2)
            = GetFileContent.decode (s1 +:+ s2))
    [ "010"; "013"; " "; "009" ]%char.
Proof.
  repeat constructor; intros s1 s2;
    unfold GetFileContent.decode, Buffer.from_base64;
    by rewrite sextets_app_skip.
Qed.


(** ** Properties of the chat handler's tools *)

Section ChatProperties.
Context {imports : Imports} (weatherTool chartTool : Tool).

Lemma chat_githubTools_with_token githubToken configToken :
  truthy (Chat.token githubToken configToken) = true →
  Chat.tools weatherTool chartTool githubToken configToken
  = [("weather", weatherTool); ("chart", chartTool)]
    ++ allTools
         (createOctokit (default "" (Chat.token githubToken configToken)))
         (λ name, Some {| ToolOptions.needsApproval := Some true |}).
Proof.
  intros Htoken. unfold Chat.tools, Chat.githubTools. rewrite Htoken.
  apply fold_set_property. unfold Object_keys. rewrite fmap_app.
  change (NoDup ("weather" :: "chart" :: tool_names)).
  apply (bool_decide_unpack _). vm_compute. exact I.
Qed.

(** With a token the model gets the handler's two tools, unchanged, then
    the 18 GitHub tools, every mutating one needing approval, and 20
    steps. *)
Theorem chat_tools_with_token githubToken configToken :
  truthy (Chat.token githubToken configToken) = true →
  let tools := Chat.tools weatherTool chartTool githubToken configToken in
  Object_keys tools = "weather" :: "chart" :: tool_names
  ∧ get_property tools "weather" = Some weatherTool
  ∧ get_property tools "chart" = Some chartTool
  ∧ (∀ w, approval_flags tools (GithubWriteToolName.to_string w) = [true])
  ∧ Chat.step_limit githubToken configToken = 20.
Proof.
  intros Htoken tools. subst tools.
  rewrite (chat_githubTools_with_token _ _ Htoken).
  split; [done|]. split; [done|]. split; [done|]. split.
  - intros w. cbn [app]. rewrite !approval_flags_cons.
    rewrite (approval_flags_allTools _ (λ _, true)). by destruct w.
  - unfold Chat.step_limit. by rewrite Htoken.
Qed.

(** An empty token in the request body hides the configured token: the
    model gets the handler's two tools only, and 5 steps; so it does when
    there is no token at all. *)
Theorem chat_tools_without_token :
  (∀ configToken,
     Chat.tools weatherTool chartTool (Some "") configToken
     = [("weather", weatherTool); ("chart", chartTool)]
     ∧ Chat.step_limit (Some "") configToken = 5)
  ∧ Chat.tools weatherTool chartTool None None
    = [("weather", weatherTool); ("chart", chartTool)]
  ∧ Chat.step_limit None None = 5.
Proof. done. Qed.

End ChatProperties.

Lemma chat_tools_with_token_witness :
  Chat.step_limit None (Some "ghp_token") = 20.
Proof.
  exact (proj2 (proj2 (proj2 (proj2
    (chat_tools_with_token (imports := sample_imports)
       (getRepository sample_octokit) (listBranches sample_octokit)
       None (Some "ghp_token") eq_refl))))).
Defined.
